(** * Rows meta, columns export and detail-panel pre-processing of the data grid

    A shallow embedding of three hooks of the grid:
    - [useGridRowsMeta] (row heights, cumulative positions, measurement cache),
    - the [exportState] pre-processor of [useGridColumns],
    - the [hydrateColumns] pre-processor of [useGridDetailPanelPreProcessors].

    Conventions of the embedding.
    - A JavaScript number that stands for a pixel size is an integer of [Z];
      the code only adds and compares these numbers.  Where the code handles
      [Infinity] (the watermark, column dimensions) the number is a [Num].
    - A JavaScript object used as a dictionary is a [gmap] over its string
      keys; a row id is the property key it is used as.  A read of a key
      that the object does not own gives the property that every object
      inherits under that name, if there is one ([inheritedProperty]); the
      accessors of the cache are modelled with these reads, and a run of
      [hydrateRowsMeta] is modelled for rows whose ids name no inherited
      property.  A key bound to [undefined] is represented as an absent key:
      every read of the code gives [undefined] in both cases, and in the loop
      over the size components [undefined > m] is false, so that a base
      component bound to [undefined] contributes nothing.
    - A [React.useRef] cell is a field of the hook's state record; a callback
      that mutates the cells is a function from state to state.
    - Props, selector results and the methods of [apiRef] that the hooks only
      call are fields of an environment record. *)

From Stdlib Require Import ZArith List Ascii String Bool Lia.
From stdpp Require Import base option list strings gmap fin_maps.

Open Scope Z_scope.

(** ** Numbers with [Infinity] *)

Inductive Num : Type :=
  | Fin (z : Z)
  | Infinity.

(** [a > b] on numbers *)
Definition Num_gt (a b : Num) : bool :=
  match a, b with
  | Fin x, Fin y => Z.gtb x y
  | Fin _, Infinity => false
  | Infinity, Fin _ => true
  | Infinity, Infinity => false
  end.

Definition Num_le (a b : Num) : Prop :=
  match a, b with
  | Fin x, Fin y => x <= y
  | _, Infinity => True
  | Infinity, Fin _ => False
  end.

(** ** Completions of a call: normal return or an uncaught exception *)

Inductive JsError : Type :=
  | TypeError.

Inductive Completion (A : Type) : Type :=
  | Normal (a : A)
  | Throw (e : JsError).

Arguments Normal {A} a.
Arguments Throw {A} e.

(** ** Keys of the size components *)

Definition isUpperCase (c : ascii) : bool :=
  let n := nat_of_ascii c in Nat.leb 65 n && Nat.leb n 90.

(** [/^base[A-Z]/.test(key)] *)
Definition isBaseKey (key : string) : bool :=
  match key with
  | String "b" (String "a" (String "s" (String "e" (String c _)))) => isUpperCase c
  | _ => false
  end.

Definition toUpperCase (c : ascii) : ascii :=
  let n := nat_of_ascii c in
  if Nat.leb 97 n && Nat.leb n 122 then ascii_of_nat (n - 32) else c.

(** [capitalize] of the component library, on ASCII letters:
    [string.charAt(0).toUpperCase() + string.slice(1)] *)
Definition capitalize (s : string) : string :=
  match s with
  | EmptyString => EmptyString
  | String c rest => String (toUpperCase c) rest
  end.

(** [`base${capitalize(position)}`] *)
Definition baseSlot (position : string) : string :=
  String.append "base" (capitalize position).

(** The names of the properties that a plain object inherits from
    [Object.prototype]: reading one of them on an object that does not own
    it gives a function (the prototype itself for [__proto__]), which is
    truthy and not nullish. *)
Definition inheritedProperty (key : string) : bool :=
  bool_decide
    (key ∈ ["constructor"; "hasOwnProperty"; "isPrototypeOf"; "propertyIsEnumerable";
            "toLocaleString"; "toString"; "valueOf"; "__defineGetter__";
            "__defineSetter__"; "__lookupGetter__"; "__lookupSetter__"; "__proto__"]).

(** ** The data of the rows-meta hook *)

Abbreviation GridRowId := string.
Abbreviation Sizes := (gmap string Z).

(** An entry of [rowsHeightLookup] *)
Record HeightEntry : Type := mkHeightEntry {
  isResized : bool;
  sizes : Sizes;
  autoHeight : bool;
  needsFirstMeasurement : bool;
}.

Record RowsMeta : Type := mkRowsMeta {
  currentPageTotalHeight : Z;
  positions : list Z;
}.

(** The mutable cells of the hook and the [rowsMeta] slice of the grid state.
    [debouncedCalls] counts the calls of [debouncedHydrateRowsMeta]. *)
Record State : Type := mkState {
  rowsHeightLookup : gmap GridRowId HeightEntry;
  lastMeasuredRowIndex : Num;
  hasRowWithAutoHeight : bool;
  rowsMeta : RowsMeta;
  debouncedCalls : nat;
}.

(** [rowsMetaStateInitializer] and the initial values of the refs *)
Definition initialState : State :=
  {| rowsHeightLookup := ∅;
     lastMeasuredRowIndex := Fin (-1);
     hasRowWithAutoHeight := false;
     rowsMeta := {| currentPageTotalHeight := 0; positions := [] |};
     debouncedCalls := 0 |}.

Definition set_rowsHeightLookup (l : gmap GridRowId HeightEntry) (st : State) : State :=
  mkState l (lastMeasuredRowIndex st) (hasRowWithAutoHeight st) (rowsMeta st) (debouncedCalls st).

Definition set_lastMeasuredRowIndex (n : Num) (st : State) : State :=
  mkState (rowsHeightLookup st) n (hasRowWithAutoHeight st) (rowsMeta st) (debouncedCalls st).

Definition set_hasRowWithAutoHeight (b : bool) (st : State) : State :=
  mkState (rowsHeightLookup st) (lastMeasuredRowIndex st) b (rowsMeta st) (debouncedCalls st).

Definition set_rowsMeta (m : RowsMeta) (st : State) : State :=
  mkState (rowsHeightLookup st) (lastMeasuredRowIndex st) (hasRowWithAutoHeight st) m (debouncedCalls st).

Definition set_debouncedCalls (n : nat) (st : State) : State :=
  mkState (rowsHeightLookup st) (lastMeasuredRowIndex st) (hasRowWithAutoHeight st) (rowsMeta st) n.

(** What [getRowHeight] of the props returns: ['auto'], a number, or
    [null]/[undefined] *)
Inductive GridRowHeightReturnValue : Type :=
  | HeightAuto
  | HeightValue (v : option Z).

(** What [getRowSpacing] returns: [{ top?, bottom? }] *)
Record GridRowSpacing : Type := mkGridRowSpacing {
  top : option Z;
  bottom : option Z;
}.

Section RowsMetaHook.

(** The type of the row models and of the density factor; the hook hands
    both to the callbacks of the props and never inspects them. *)
Context {RowModel DensityFactor : Type}.

Record GridRowEntry : Type := mkGridRowEntry {
  id : GridRowId;
  model : RowModel;
}.

(** [{ ...row, densityFactor }] *)
Record GridRowHeightParams : Type := mkGridRowHeightParams {
  heightRow : GridRowEntry;
  heightDensityFactor : DensityFactor;
}.

(** [{ ...row, isFirstVisible, isLastVisible, indexRelativeToCurrentPage }];
    the index is [None] when the api returns [undefined] *)
Record GridRowSpacingParams : Type := mkGridRowSpacingParams {
  spacingRow : GridRowEntry;
  isFirstVisible : bool;
  isLastVisible : bool;
  indexRelativeToCurrentPage : option Z;
}.

Record GridPinnedRows : Type := mkGridPinnedRows {
  pinnedTop : option (list GridRowEntry);
  pinnedBottom : option (list GridRowEntry);
}.

(** Everything [hydrateRowsMeta] closes over or reads from [apiRef]. *)
Record Env : Type := mkEnv {
  rowHeightFromDensity : Z;
  densityFactor : DensityFactor;
  getRowHeightProp : option (GridRowHeightParams -> GridRowHeightReturnValue);
  getEstimatedRowHeight : option (GridRowHeightParams -> option Z);
  getRowSpacing : option (GridRowSpacingParams -> GridRowSpacing);
  currentPage_rows : list GridRowEntry;
  pinnedRows : option GridPinnedRows;
  getRowIndexRelativeToVisibleRows : GridRowId -> option Z;
  (** [unstable_applyPipeProcessors('rowHeight', initialHeights, row)] *)
  applyRowHeightProcessors : Sizes -> GridRowEntry -> Sizes;
}.

(** The entry created for a row that the cache does not know yet. *)
Definition newHeightEntry (env : Env) : HeightEntry :=
  {| sizes := {[ "baseCenter" := rowHeightFromDensity env ]};
     isResized := false;
     autoHeight := false;
     needsFirstMeasurement := true |}.

(** [Object.entries(sizes).reduce] keeping the [base*] components *)
Definition existingBaseSizes (s : Sizes) : Sizes :=
  filter (fun kv : string * Z => isBaseKey (fst kv) = true) s.

(** [{ ...existingBaseSizes, baseCenter: baseRowHeight }] *)
Definition withBaseCenter (baseRowHeight : option Z) (s : Sizes) : Sizes :=
  match baseRowHeight with
  | Some h => <["baseCenter" := h]> s
  | None => delete "baseCenter" s
  end.

(** [indexRelativeToCurrentPage === n] *)
Definition indexIs (i : option Z) (n : Z) : bool :=
  match i with
  | Some k => Z.eqb k n
  | None => false
  end.

(** The [if (getRowSpacing)] block *)
Definition withSpacing (env : Env) (row : GridRowEntry) (initialHeights : Sizes) : Sizes :=
  match getRowSpacing env with
  | Some getSpacing =>
      let index := getRowIndexRelativeToVisibleRows env (id row) in
      let spacing :=
        getSpacing
          {| spacingRow := row;
             isFirstVisible := indexIs index 0;
             isLastVisible := indexIs index (Z.of_nat (length (currentPage_rows env)) - 1);
             indexRelativeToCurrentPage := index |} in
      <["spacingBottom" := default 0 (bottom spacing)]>
        (<["spacingTop" := default 0 (top spacing)]> initialHeights)
  | None => initialHeights
  end.

(** The cascade [if (isResized) ... else if (getRowHeightProp) ... else ...]
    of [calculateRowProcessedSizes]: from the entry of the row it gives
    [baseRowHeight] and the values that the flags [needsFirstMeasurement] and
    [autoHeight] of the entry and the cell [hasRowWithAutoHeight] have after
    it, in this order. *)
Definition baseRowHeightOf (env : Env) (row : GridRowEntry) (hasRowWithAuto : bool)
    (entry : HeightEntry) : option Z * bool * bool * bool :=
  let existingBaseRowHeight := sizes entry !! "baseCenter" in
  let params := {| heightRow := row; heightDensityFactor := densityFactor env |} in
  if isResized entry then
    (existingBaseRowHeight, needsFirstMeasurement entry, autoHeight entry, hasRowWithAuto)
  else
    match getRowHeightProp env with
    | Some getRowHeight =>
        match getRowHeight params with
        | HeightAuto =>
            let baseRowHeight :=
              if needsFirstMeasurement entry then
                let estimatedRowHeight :=
                  match getEstimatedRowHeight env with
                  | Some estimate => estimate params
                  | None => Some (rowHeightFromDensity env)
                  end in
                Some (default (rowHeightFromDensity env) estimatedRowHeight)
              else existingBaseRowHeight in
            (baseRowHeight, needsFirstMeasurement entry, true, true)
        | HeightValue rowHeightFromUser =>
            (Some (default (rowHeightFromDensity env) rowHeightFromUser),
             false, false, hasRowWithAuto)
        end
    | None =>
        (Some (rowHeightFromDensity env), false, autoHeight entry, hasRowWithAuto)
    end.

(** [calculateRowProcessedSizes] on the state: the new state and the
    processed sizes it returns. *)
Definition calculateRowProcessedSizes (env : Env) (row : GridRowEntry) (st : State)
  : State * Sizes :=
  let entry := default (newHeightEntry env) (rowsHeightLookup st !! id row) in
  let '(baseRowHeight, needsFirst, auto, hasAuto) :=
    baseRowHeightOf env row (hasRowWithAutoHeight st) entry in
  let initialHeights :=
    withSpacing env row (withBaseCenter baseRowHeight (existingBaseSizes (sizes entry))) in
  let processedSizes := applyRowHeightProcessors env initialHeights row in
  let entry' :=
    {| isResized := isResized entry;
       sizes := processedSizes;
       autoHeight := auto;
       needsFirstMeasurement := needsFirst |} in
  (set_hasRowWithAutoHeight hasAuto
     (set_rowsHeightLookup (<[id row := entry']> (rowsHeightLookup st)) st),
   processedSizes).

(** The body of [Object.entries(processedSizes).forEach]:
    the pair is [(maximumBaseSize, otherSizes)]. *)
Definition sizeStep (acc : Z * Z) (kv : string * Z) : Z * Z :=
  let '(maximumBaseSize, otherSizes) := acc in
  let '(size, value) := kv in
  if isBaseKey size then
    ((if Z.gtb value maximumBaseSize then value else maximumBaseSize), otherSizes)
  else
    (maximumBaseSize, otherSizes + value).

Definition sizeParts (processedSizes : Sizes) : Z * Z :=
  foldl sizeStep (0, 0) (map_to_list processedSizes).

(** [maximumBaseSize + otherSizes]: the height the hook gives a row *)
Definition rowTotalHeight (processedSizes : Sizes) : Z :=
  let '(maximumBaseSize, otherSizes) := sizeParts processedSizes in
  maximumBaseSize + otherSizes.

(** The callback of [currentPage.rows.reduce]; [positions] is the array the
    callback pushes to. *)
Definition pageStep (env : Env) (acc : State * list Z * Z) (row : GridRowEntry)
  : State * list Z * Z :=
  let '(st, positions, acc) := acc in
  let positions := positions ++ [acc] in
  let '(st, processedSizes) := calculateRowProcessedSizes env row st in
  let '(maximumBaseSize, otherSizes) := sizeParts processedSizes in
  (st, positions, acc + maximumBaseSize + otherSizes).

(** [rows?.forEach((row) => { calculateRowProcessedSizes(row); })] *)
Definition pinnedStep (env : Env) (st : State) (row : GridRowEntry) : State :=
  fst (calculateRowProcessedSizes env row st).

Definition pinnedTopRows (env : Env) : list GridRowEntry :=
  default [] (pinnedRows env ≫= pinnedTop).

Definition pinnedBottomRows (env : Env) : list GridRowEntry :=
  default [] (pinnedRows env ≫= pinnedBottom).

Definition hydrateRowsMeta (env : Env) (st : State) : State :=
  let st := set_hasRowWithAutoHeight false st in
  let '(st, positions, currentPageTotalHeight) :=
    foldl (pageStep env) (st, [], 0) (currentPage_rows env) in
  let st := foldl (pinnedStep env) st (pinnedTopRows env) in
  let st := foldl (pinnedStep env) st (pinnedBottomRows env) in
  let st :=
    set_rowsMeta
      {| currentPageTotalHeight := currentPageTotalHeight; positions := positions |} st in
  if negb (hasRowWithAutoHeight st) then set_lastMeasuredRowIndex Infinity st else st.

(** [unstable_getRowHeight]; [None] is [undefined] *)
Definition getRowHeight (env : Env) (rowId : GridRowId) (st : State)
  : Completion (option Z) :=
  match rowsHeightLookup st !! rowId with
  | Some height => Normal (sizes height !! "baseCenter")
  | None =>
      (* [height] is the inherited property: it is truthy and has no
         [sizes], and reading [baseCenter] of [undefined] throws *)
      if inheritedProperty rowId then Throw TypeError
      else Normal (Some (rowHeightFromDensity env))
  end.

(** [unstable_getRowInternalSizes] *)
Definition getRowInternalSizes (rowId : GridRowId) (st : State) : option Sizes :=
  sizes <$> rowsHeightLookup st !! rowId.

(** [unstable_setRowHeight]: reading [.sizes] of a missing entry throws. *)
Definition setRowHeight (env : Env) (id : GridRowId) (height : Z) (st : State)
  : Completion State :=
  match rowsHeightLookup st !! id with
  | None => Throw TypeError
  | Some entry =>
      let entry' :=
        {| isResized := true;
           sizes := <["baseCenter" := height]> (sizes entry);
           autoHeight := autoHeight entry;
           needsFirstMeasurement := false |} in
      Normal (hydrateRowsMeta env
                (set_rowsHeightLookup (<[id := entry']> (rowsHeightLookup st)) st))
  end.

(** [debouncedHydrateRowsMeta()]: the call is recorded; the debounce utility
    runs [hydrateRowsMeta] later. *)
Definition debouncedHydrateRowsMeta (st : State) : State :=
  set_debouncedCalls (S (debouncedCalls st)) st.

(** [height !== stored], where a missing component reads as [undefined] *)
Definition differsFrom (stored : option Z) (height : Z) : bool :=
  match stored with
  | Some v => negb (Z.eqb v height)
  | None => true
  end.

(** [unstable_storeRowHeightMeasurement] *)
Definition storeMeasuredRowHeight (id : GridRowId) (height : Z) (position : string)
    (st : State) : State :=
  match rowsHeightLookup st !! id with
  | None => st
  | Some entry =>
      if negb (autoHeight entry) then st
      else
        let needsHydration := differsFrom (sizes entry !! baseSlot position) height in
        let entry' :=
          {| isResized := isResized entry;
             sizes := <[baseSlot position := height]> (sizes entry);
             autoHeight := autoHeight entry;
             needsFirstMeasurement := false |} in
        let st := set_rowsHeightLookup (<[id := entry']> (rowsHeightLookup st)) st in
        if needsHydration then debouncedHydrateRowsMeta st else st
  end.

(** [unstable_rowHasAutoHeight] *)
Definition rowHasAutoHeight (id : GridRowId) (st : State) : bool :=
  match rowsHeightLookup st !! id with
  | Some entry => autoHeight entry
  | None => false
  end.

(** [unstable_getLastMeasuredRowIndex] *)
Definition getLastMeasuredRowIndex (st : State) : Num :=
  lastMeasuredRowIndex st.

(** [unstable_setLastMeasuredRowIndex] *)
Definition setLastMeasuredRowIndex (index : Num) (st : State) : State :=
  if hasRowWithAutoHeight st && Num_gt index (lastMeasuredRowIndex st)
  then set_lastMeasuredRowIndex index st
  else st.

(** [resetRowHeights] *)
Definition resetRowHeights (env : Env) (st : State) : State :=
  hydrateRowsMeta env (set_rowsHeightLookup ∅ st).

End RowsMetaHook.

Arguments GridRowEntry : clear implicits.
Arguments GridRowHeightParams : clear implicits.
Arguments GridRowSpacingParams : clear implicits.
Arguments GridPinnedRows : clear implicits.
Arguments Env : clear implicits.

(** ** The columns state and its export *)

(** A column definition: its field, the [hasBeenResized] flag and its
    numeric properties by name ([colDef[propertyName]]). *)
Record GridColDef : Type := mkGridColDef {
  field : string;
  hasBeenResized : bool;
  numericProps : gmap string Num;
}.

Abbreviation GridColumnVisibilityModel := (gmap string bool).
Abbreviation GridColumnDimensions := (gmap string Num).

Record GridColumnsState : Type := mkGridColumnsState {
  orderedFields : list string;
  lookup : gmap string GridColDef;
  columnVisibilityModel : GridColumnVisibilityModel;
}.

(** [GridColumnsInitialState]: every key is optional *)
Record GridColumnsInitialState : Type := mkGridColumnsInitialState {
  initialColumnVisibilityModel : option GridColumnVisibilityModel;
  initialOrderedFields : option (list string);
  initialDimensions : option (gmap string GridColumnDimensions);
}.

(** The props the export reads: [props.columnVisibilityModel] and
    [props.initialState?.columns] *)
Record ColumnsProps : Type := mkColumnsProps {
  propColumnVisibilityModel : option GridColumnVisibilityModel;
  propInitialColumns : option GridColumnsInitialState;
}.

Record ExportContext : Type := mkExportContext {
  exportOnlyDirtyModels : bool;
}.

(** Modelled from the spec: the selector [gridColumnFieldsSelector], whose
    code is not part of the sources; it reads the ordered sequence of field
    identifiers of the columns state. *)
Definition gridColumnFieldsSelector (cols : GridColumnsState) : list string :=
  orderedFields cols.

(** Modelled from the spec: the selector [gridColumnVisibilityModelSelector],
    whose code is not part of the sources; it reads the visibility model of
    the columns state. *)
Definition gridColumnVisibilityModelSelector (cols : GridColumnsState)
  : GridColumnVisibilityModel :=
  columnVisibilityModel cols.

(** Modelled from the spec: the selector [gridColumnDefinitionsSelector],
    whose code is not part of the sources; the column definitions are the
    lookup entries of the ordered fields, in display order (every ordered
    field has a lookup entry). *)
Definition gridColumnDefinitionsSelector (cols : GridColumnsState) : list GridColDef :=
  omap (fun f => lookup cols !! f) (orderedFields cols).

(** [Object.keys(model).length > 0] *)
Definition hasKeys {A : Type} (m : gmap string A) : bool :=
  negb (Nat.eqb (size m) 0).

Section ColumnsExport.

(** The constant [COLUMNS_DIMENSION_PROPERTIES] of [gridColumnsUtils], which
    is not part of the sources. *)
Variable COLUMNS_DIMENSION_PROPERTIES : list string.

(** The slices of the exported state that belong to other features. *)
Context {OtherSlices : Type}.

Record GridInitialState : Type := mkGridInitialState {
  columns : option GridColumnsInitialState;
  otherSlices : OtherSlices;
}.

(** The body of [COLUMNS_DIMENSION_PROPERTIES.forEach] *)
Definition dimensionStep (colDef : GridColDef) (colDefDimensions : GridColumnDimensions)
    (propertyName : string) : GridColumnDimensions :=
  match numericProps colDef !! propertyName with
  | Some Infinity => <[propertyName := Fin (-1)]> colDefDimensions
  | Some propertyValue => <[propertyName := propertyValue]> colDefDimensions
  | None => delete propertyName colDefDimensions
  end.

(** The body of [columns.forEach] *)
Definition columnStep (dimensions : gmap string GridColumnDimensions) (colDef : GridColDef)
  : gmap string GridColumnDimensions :=
  if hasBeenResized colDef then
    let colDefDimensions :=
      foldl (dimensionStep colDef) ∅ COLUMNS_DIMENSION_PROPERTIES in
    <[field colDef := colDefDimensions]> dimensions
  else dimensions.

Definition shouldExportColumnVisibilityModel (props : ColumnsProps)
    (cols : GridColumnsState) (context : ExportContext) : bool :=
  negb (exportOnlyDirtyModels context)
  || bool_decide (is_Some (propColumnVisibilityModel props))
  || hasKeys (default ∅ (propInitialColumns props ≫= initialColumnVisibilityModel))
  || hasKeys (gridColumnVisibilityModelSelector cols).

(** [stateExportPreProcessing] *)
Definition stateExportPreProcessing (props : ColumnsProps) (cols : GridColumnsState)
    (prevState : GridInitialState) (context : ExportContext) : GridInitialState :=
  let columnVisibilityModelToExport := gridColumnVisibilityModelSelector cols in
  let dimensions := foldl columnStep ∅ (gridColumnDefinitionsSelector cols) in
  let columnsStateToExport :=
    {| initialColumnVisibilityModel :=
         if shouldExportColumnVisibilityModel props cols context
         then Some columnVisibilityModelToExport else None;
       initialOrderedFields := Some (gridColumnFieldsSelector cols);
       initialDimensions := if hasKeys dimensions then Some dimensions else None |} in
  {| columns := Some columnsStateToExport;
     otherSlices := otherSlices prevState |}.

End ColumnsExport.

Arguments GridInitialState : clear implicits.

(** ** The detail-panel toggle column *)

Section DetailPanel.

(** The constant [GRID_DETAIL_PANEL_TOGGLE_FIELD] and the column definition
    [{ ...GRID_DETAIL_PANEL_TOGGLE_COL_DEF, headerName }]; both come from
    [gridDetailPanelToggleColDef], which is not part of the sources. *)
Variable GRID_DETAIL_PANEL_TOGGLE_FIELD : string.
Variable toggleColDef : GridColDef.

(** [addToggleColumn]; [hasGetDetailPanelContent] is
    [props.getDetailPanelContent != null]. *)
Definition addToggleColumn (hasGetDetailPanelContent : bool)
    (columnsState : GridColumnsState) : GridColumnsState :=
  if negb hasGetDetailPanelContent then
    match lookup columnsState !! GRID_DETAIL_PANEL_TOGGLE_FIELD with
    | Some _ =>
        {| lookup := delete GRID_DETAIL_PANEL_TOGGLE_FIELD (lookup columnsState);
           orderedFields :=
             filter (fun field => field ≠ GRID_DETAIL_PANEL_TOGGLE_FIELD)
                    (orderedFields columnsState);
           columnVisibilityModel := columnVisibilityModel columnsState |}
    | None => columnsState
    end
  else
    match lookup columnsState !! GRID_DETAIL_PANEL_TOGGLE_FIELD with
    | Some _ => columnsState
    | None =>
        {| orderedFields := GRID_DETAIL_PANEL_TOGGLE_FIELD :: orderedFields columnsState;
           lookup := <[GRID_DETAIL_PANEL_TOGGLE_FIELD := toggleColDef]> (lookup columnsState);
           columnVisibilityModel := columnVisibilityModel columnsState |}
    end.

(** The invariant of the columns state for one field: an ordered field has a
    lookup entry. *)
Definition fieldHasDefinition (f : string) (columnsState : GridColumnsState) : Prop :=
  f ∈ orderedFields columnsState -> is_Some (lookup columnsState !! f).

End DetailPanel.

(** ** Definitions used to state the properties *)

(** The components of a size map, as lists of values *)
Definition baseComponents (s : Sizes) : list Z :=
  snd <$> filter (fun kv : string * Z => isBaseKey (fst kv) = true) (map_to_list s).

Definition otherComponents (s : Sizes) : list Z :=
  snd <$> filter (fun kv : string * Z => isBaseKey (fst kv) <> true) (map_to_list s).

(** The maximum of a list of numbers; 0 for the empty list *)
Definition maximumOf (l : list Z) : Z :=
  match l with
  | [] => 0
  | x :: rest => foldr Z.max x rest
  end.

Definition sumOf (l : list Z) : Z := foldr Z.add 0 l.

(** The total row height in the words of the specification: the maximum of
    the [base*] components plus the sum of the other components. *)
Definition totalRowHeight (s : Sizes) : Z :=
  maximumOf (baseComponents s) + sumOf (otherComponents s).

Definition nonNegativeSizes (s : Sizes) : Prop :=
  map_Forall (fun (_ : string) (v : Z) => 0 <= v) s.

(** The cumulative offsets of a list of heights, starting at [start] *)
Fixpoint offsetsFrom (start : Z) (heights : list Z) : list Z :=
  match heights with
  | [] => []
  | h :: rest => start :: offsetsFrom (start + h) rest
  end.

(** The value the export writes for a dimension: [-1] in place of
    [Infinity] *)
Definition withoutInfinity (v : Num) : Num :=
  match v with
  | Infinity => Fin (-1)
  | Fin z => Fin z
  end.

(** The slice the export writes when nothing is dirty: the ordered fields
    and no other key *)
Definition orderedFieldsOnly (fields : list string) : GridColumnsInitialState :=
  {| initialColumnVisibilityModel := None;
     initialOrderedFields := Some fields;
     initialDimensions := None |}.

Section RowsMetaTrace.

Context {RowModel DensityFactor : Type}.
Local Abbreviation Env := (Env RowModel DensityFactor).
Local Abbreviation GridRowEntry := (GridRowEntry RowModel).

(** The processed sizes that [calculateRowProcessedSizes] returns for the
    rows of a list, processed in order from state [st] *)
Fixpoint processedSizesOf (env : Env) (st : State) (rows : list GridRowEntry)
  : list Sizes :=
  match rows with
  | [] => []
  | row :: rest =>
      let '(st', s) := calculateRowProcessedSizes env row st in
      s :: processedSizesOf env st' rest
  end.

(** The state after [calculateRowProcessedSizes] ran on the rows of a list *)
Definition stateAfterRows (env : Env) (st : State) (rows : list GridRowEntry) : State :=
  foldl (pinnedStep env) st rows.

(** The sizes that one run of [hydrateRowsMeta] computes for the rows of the
    current page *)
Definition pageSizes (env : Env) (st : State) : list Sizes :=
  processedSizesOf env (set_hasRowWithAutoHeight false st) (currentPage_rows env).

(** All the rows one run processes, in the order of processing *)
Definition processedRows (env : Env) : list GridRowEntry :=
  currentPage_rows env ++ pinnedTopRows env ++ pinnedBottomRows env.

(** A row for which a run takes the ['auto'] branch: it is not resized and
    the height provider answers ['auto']. *)
Definition takesAutoBranch (env : Env) (st : State) (row : GridRowEntry) : bool :=
  negb (from_option isResized false (rowsHeightLookup st !! id row))
  && match getRowHeightProp env with
     | Some getRowHeight =>
         match getRowHeight {| heightRow := row; heightDensityFactor := densityFactor env |} with
         | HeightAuto => true
         | HeightValue _ => false
         end
     | None => false
     end.

(** The entry [calculateRowProcessedSizes] starts from: the entry of the
    cache, or the entry it creates. *)
Definition entryOf (env : Env) (st : State) (row : GridRowEntry) : HeightEntry :=
  default (newHeightEntry env) (rowsHeightLookup st !! id row).

(** The entry [calculateRowProcessedSizes] leaves in the cache for a row
    whose entry was [entry] *)
Definition processEntry (env : Env) (row : GridRowEntry) (entry : HeightEntry)
  : HeightEntry :=
  let '(baseRowHeight, needsFirst, auto, _) := baseRowHeightOf env row false entry in
  {| isResized := isResized entry;
     sizes :=
       applyRowHeightProcessors env
         (withSpacing env row
            (withBaseCenter baseRowHeight (existingBaseSizes (sizes entry)))) row;
     autoHeight := auto;
     needsFirstMeasurement := needsFirst |}.

(** The [rowHeight] processors return [baseCenter] as they receive it. *)
Definition keepsBaseCenter (env : Env) : Prop :=
  forall (s : Sizes) (row : GridRowEntry),
    applyRowHeightProcessors env s row !! "baseCenter" = s !! "baseCenter".

(** The [rowHeight] processors return every [base*] component as they
    receive it, and add or remove none. *)
Definition keepsBaseSizes (env : Env) : Prop :=
  forall (s : Sizes) (row : GridRowEntry),
    existingBaseSizes (applyRowHeightProcessors env s row) = existingBaseSizes s.

(** The base component of a row in the cache *)
Definition cachedBaseCenter (rowId : GridRowId) (st : State) : option Z :=
  rowsHeightLookup st !! rowId ≫= fun entry => sizes entry !! "baseCenter".

End RowsMetaTrace.

(** ** Concrete grids *)

Module Examples.

Definition row (rowId : GridRowId) : GridRowEntry unit := mkGridRowEntry rowId tt.

(** A page of three rows and one row pinned at the top.  Row [a] has an
    automatic height, the other rows are 30 high; every row but the first
    visible one has a spacing of 4 above it; the detail panel of row [b] adds
    a component of 7. *)
Definition gridEnv : Env unit unit :=
  {| rowHeightFromDensity := 52;
     densityFactor := tt;
     getRowHeightProp :=
       Some (fun params =>
               if String.eqb (id (heightRow params)) "a" then HeightAuto
               else HeightValue (Some 30));
     getEstimatedRowHeight := None;
     getRowSpacing :=
       Some (fun params =>
               {| top := if isFirstVisible params then None else Some 4;
                  bottom := None |});
     currentPage_rows := [row "a"; row "b"; row "c"];
     pinnedRows := Some {| pinnedTop := Some [row "t"]; pinnedBottom := None |};
     getRowIndexRelativeToVisibleRows :=
       fun rowId =>
         if String.eqb rowId "a" then Some 0
         else if String.eqb rowId "b" then Some 1
         else if String.eqb rowId "c" then Some 2
         else None;
     applyRowHeightProcessors :=
       fun initialHeights r =>
         if String.eqb (id r) "b" then <["detail" := 7]> initialHeights
         else initialHeights |}.

(** The same grid once the height provider answers 30 for every row. *)
Definition fixedHeightEnv : Env unit unit :=
  {| rowHeightFromDensity := rowHeightFromDensity gridEnv;
     densityFactor := tt;
     getRowHeightProp := Some (fun _ => HeightValue (Some 30));
     getEstimatedRowHeight := None;
     getRowSpacing := getRowSpacing gridEnv;
     currentPage_rows := currentPage_rows gridEnv;
     pinnedRows := pinnedRows gridEnv;
     getRowIndexRelativeToVisibleRows := getRowIndexRelativeToVisibleRows gridEnv;
     applyRowHeightProcessors := applyRowHeightProcessors gridEnv |}.

(** The state of the grid after its first run *)
Definition gridState : State := hydrateRowsMeta gridEnv initialState.

(** The entry of row [a] after the first run *)
Definition entryA : HeightEntry :=
  {| isResized := false;
     sizes := {[ "baseCenter" := 52; "spacingTop" := 0; "spacingBottom" := 0 ]};
     autoHeight := true;
     needsFirstMeasurement := true |}.

(** A grid of one row whose [rowHeight] processor enforces a minimum height
    of 100 on [baseCenter]. *)
Definition minimumHeightEnv : Env unit unit :=
  {| rowHeightFromDensity := 52;
     densityFactor := tt;
     getRowHeightProp := None;
     getEstimatedRowHeight := None;
     getRowSpacing := None;
     currentPage_rows := [row "a"];
     pinnedRows := None;
     getRowIndexRelativeToVisibleRows := fun _ => Some 0;
     applyRowHeightProcessors :=
       fun initialHeights _ =>
         match initialHeights !! "baseCenter" with
         | Some h => <["baseCenter" := Z.max h 100]> initialHeights
         | None => initialHeights
         end |}.

Definition minimumHeightState : State := hydrateRowsMeta minimumHeightEnv initialState.

(** A grid of one row with an automatic height whose [rowHeight] processor
    adds a padding of 10 to [baseCenter]. *)
Definition paddingEnv : Env unit unit :=
  {| rowHeightFromDensity := 52;
     densityFactor := tt;
     getRowHeightProp := Some (fun _ => HeightAuto);
     getEstimatedRowHeight := None;
     getRowSpacing := None;
     currentPage_rows := [row "a"];
     pinnedRows := None;
     getRowIndexRelativeToVisibleRows := fun _ => Some 0;
     applyRowHeightProcessors :=
       fun initialHeights _ =>
         match initialHeights !! "baseCenter" with
         | Some h => <["baseCenter" := h + 10]> initialHeights
         | None => initialHeights
         end |}.

(** The row was rendered and measured 80 high. *)
Definition paddingState : State :=
  storeMeasuredRowHeight "a" 80 "center" (hydrateRowsMeta paddingEnv initialState).

(** A page that lists the id [a] twice, with two row models; no processor is
    registered.  The first model has an automatic height, the second one is
    50 high. *)
Definition twiceEnv : Env bool unit :=
  {| rowHeightFromDensity := 52;
     densityFactor := tt;
     getRowHeightProp :=
       Some (fun params : GridRowHeightParams bool unit =>
               if model (heightRow params) then HeightAuto else HeightValue (Some 50));
     getEstimatedRowHeight := None;
     getRowSpacing := None;
     currentPage_rows := [mkGridRowEntry "a" true; mkGridRowEntry "a" false];
     pinnedRows := None;
     getRowIndexRelativeToVisibleRows := fun _ => Some 0;
     applyRowHeightProcessors := fun initialHeights _ => initialHeights |}.

(** Two columns, none resized, every column visible *)
Definition nameColumn : GridColDef :=
  {| field := "name";
     hasBeenResized := false;
     numericProps := {[ "width" := Fin 100; "minWidth" := Fin 50; "maxWidth" := Infinity ]} |}.

Definition ageColumn : GridColDef :=
  {| field := "age";
     hasBeenResized := false;
     numericProps := {[ "width" := Fin 80; "minWidth" := Fin 50; "maxWidth" := Infinity ]} |}.

Definition cleanColumns : GridColumnsState :=
  {| orderedFields := ["name"; "age"];
     lookup := {[ "name" := nameColumn; "age" := ageColumn ]};
     columnVisibilityModel := ∅ |}.

(** The same columns after the user resized [age] *)
Definition resizedAgeColumn : GridColDef :=
  {| field := "age";
     hasBeenResized := true;
     numericProps := {[ "width" := Fin 120; "minWidth" := Fin 50; "maxWidth" := Infinity ]} |}.

Definition resizedColumns : GridColumnsState :=
  {| orderedFields := ["name"; "age"];
     lookup := {[ "name" := nameColumn; "age" := resizedAgeColumn ]};
     columnVisibilityModel := ∅ |}.

Definition noColumnsProps : ColumnsProps :=
  {| propColumnVisibilityModel := None; propInitialColumns := None |}.

Definition dimensionProperties : list string := ["maxWidth"; "minWidth"; "width"; "flex"].

Definition emptyExport : GridInitialState unit :=
  {| columns := None; otherSlices := tt |}.

Definition toggleField : string := "__detail_panel_toggle__".

Definition toggleColumn : GridColDef :=
  {| field := toggleField; hasBeenResized := false; numericProps := {[ "width" := Fin 40 ]} |}.

End Examples.

(** ** Further operations of the hooks *)

(** *** Arrays *)

(** [array.findIndex(p)]: the first index whose element satisfies [p],
    [-1] when there is none *)
Definition findIndex {A : Type} (p : A -> bool) (l : list A) : Z :=
  match list_find (fun x => p x = true) l with
  | Some (i, _) => Z.of_nat i
  | None => -1
  end.

(** The index at which [array.splice(start, ...)] starts on an array of
    length [len]: a negative [start] counts from the end, and the result is
    clamped to [0 .. len]. *)
Definition spliceStart (len : nat) (start : Z) : nat :=
  if Z.ltb start 0 then Z.to_nat (Z.max (Z.of_nat len + start) 0)
  else Z.to_nat (Z.min start (Z.of_nat len)).

(** [array.splice(start, deleteCount, ...items)]: the removed elements and
    the array after the call *)
Definition splice {A : Type} (l : list A) (start : Z) (deleteCount : nat) (items : list A)
  : list A * list A :=
  let actualStart := spliceStart (length l) start in
  let actualDeleteCount := Nat.min deleteCount (length l - actualStart) in
  (take actualDeleteCount (drop actualStart l),
   take actualStart l ++ items ++ drop (actualStart + actualDeleteCount) l).

(** *** Order of the columns *)

(** The payload of the [columnOrderChange] event, without the DOM element
    and the column definition that [apiRef] looks up *)
Record GridColumnOrderChangeParams : Type := mkGridColumnOrderChangeParams {
  orderField : string;
  targetIndex : Z;
  oldIndex : Z;
}.

(** What a call of [setColumnIndex] does: it returns early, or it stores a
    columns state and publishes [columnOrderChange], or, when the array has
    no element to remove, it inserts [undefined] among the ordered fields. *)
Inductive SetColumnIndexResult : Type :=
  | IndexUnchanged
  | IndexChanged (columnsState : GridColumnsState) (params : GridColumnOrderChangeParams)
  | IndexUndefinedField.

(** [setColumnIndex]; [setGridColumnsState] stores the columns state it is
    given as the columns slice of the grid state. *)
Definition setColumnIndex (field : string) (targetIndexPosition : Z)
    (cols : GridColumnsState) : SetColumnIndexResult :=
  let allColumns := gridColumnFieldsSelector cols in
  let oldIndexPosition := findIndex (fun col => String.eqb col field) allColumns in
  if Z.eqb oldIndexPosition targetIndexPosition then IndexUnchanged
  else
    let '(removed, updatedColumns) := splice allColumns oldIndexPosition 1 [] in
    match head removed with
    | Some fieldRemoved =>
        let '(_, updatedColumns) :=
          splice updatedColumns targetIndexPosition 0 [fieldRemoved] in
        IndexChanged
          {| orderedFields := updatedColumns;
             lookup := lookup cols;
             columnVisibilityModel := columnVisibilityModel cols |}
          {| orderField := field;
             targetIndex := targetIndexPosition;
             oldIndex := oldIndexPosition |}
    | None => IndexUndefinedField
    end.

(** *** The class of an expanded row *)

(** [addExpandedClassToRow]; [expandedRowIds] is what
    [gridDetailPanelExpandedRowIdsSelector] reads from the state. *)
Definition addExpandedClassToRow (hasGetDetailPanelContent : bool)
    (expandedRowIds : list GridRowId) (classes : list string) (id : GridRowId)
  : list string :=
  if negb hasGetDetailPanelContent then classes
  else if negb (bool_decide (id ∈ expandedRowIds)) then classes
  else classes ++ ["MuiDataGrid-row--detailPanelExpanded"].

(** *** The pointer of the clock *)

Inductive ClockPickerView : Type :=
  | hours
  | minutes
  | seconds.

Definition isHours (type : ClockPickerView) : bool :=
  match type with
  | hours => true
  | _ => false
  end.

(** The angle, in degrees, that [getAngleStyle] of [ClockPointer] writes in
    [rotateZ(...)], for a whole [viewValue].  The height it returns is a
    rounded floating-point product and is not part of the model. *)
Definition getAngleStyle_angle (type : ClockPickerView) (viewValue : Z) : Z :=
  let max := if isHours type then 12 else 60 in
  let angle := (360 / max) * viewValue in
  if isHours type && Z.gtb viewValue 12 then angle - 360 else angle.

(** *** Definitions used to state the further properties *)

(** The larger of two numbers *)
Definition Num_max (a b : Num) : Num :=
  if Num_gt a b then a else b.

(** The columns-state invariant: the ordered fields are the fields of the
    lookup. *)
Definition fieldsMatchLookup (columnsState : GridColumnsState) : Prop :=
  forall f : string,
    f ∈ orderedFields columnsState <-> is_Some (lookup columnsState !! f).

Section RowsMetaEnvironments.

Context {RowModel DensityFactor : Type}.
Local Abbreviation Env := (Env RowModel DensityFactor).
Local Abbreviation GridRowEntry := (GridRowEntry RowModel).

(** The environment of a hook whose [pinnedRows] selector gives [pinned] *)
Definition withPinnedRows (pinned : option (GridPinnedRows RowModel)) (env : Env) : Env :=
  {| rowHeightFromDensity := rowHeightFromDensity env;
     densityFactor := densityFactor env;
     getRowHeightProp := getRowHeightProp env;
     getEstimatedRowHeight := getEstimatedRowHeight env;
     getRowSpacing := getRowSpacing env;
     currentPage_rows := currentPage_rows env;
     pinnedRows := pinned;
     getRowIndexRelativeToVisibleRows := getRowIndexRelativeToVisibleRows env;
     applyRowHeightProcessors := applyRowHeightProcessors env |}.

(** A grid with no height provider, no spacing provider and no [rowHeight]
    processor *)
Definition plainGrid (env : Env) : Prop :=
  getRowHeightProp env = None /\
  getRowSpacing env = None /\
  forall (s : Sizes) (row : GridRowEntry), applyRowHeightProcessors env s row = s.

(** What the height provider answers for a row; [None] without provider *)
Definition providedHeight (env : Env) (row : GridRowEntry)
  : option GridRowHeightReturnValue :=
  (fun getRowHeight =>
     getRowHeight {| heightRow := row; heightDensityFactor := densityFactor env |})
    <$> getRowHeightProp env.

(** The estimate of the height of a row that was not measured yet:
    [getEstimatedRowHeight] when it is given and answers, else the height
    from the density *)
Definition estimatedHeight (env : Env) (row : GridRowEntry) : Z :=
  default (rowHeightFromDensity env)
    match getEstimatedRowHeight env with
    | Some estimate => estimate {| heightRow := row; heightDensityFactor := densityFactor env |}
    | None => Some (rowHeightFromDensity env)
    end.

(** What happens to the hook after a row was resized: a run of
    [hydrateRowsMeta] under some props and page, a measurement stored by
    [storeMeasuredRowHeight], or a call of [setLastMeasuredRowIndex] *)
Inductive Operation : Type :=
  | RunHydrateRowsMeta (env : Env)
  | StoreMeasurement (rowId : GridRowId) (height : Z) (position : string)
  | SetLastMeasured (index : Num).

Definition perform (op : Operation) (st : State) : State :=
  match op with
  | RunHydrateRowsMeta env => hydrateRowsMeta env st
  | StoreMeasurement rowId height position => storeMeasuredRowHeight rowId height position st
  | SetLastMeasured index => setLastMeasuredRowIndex index st
  end.

(** The operations that cannot change the [baseCenter] of the resized row
    [resized]: a run whose [rowHeight] processors return [baseCenter] as they
    receive it, a measurement of another row or of another slot, an update
    of the watermark *)
Definition sparesHeightOf (resized : GridRowId) (op : Operation) : Prop :=
  match op with
  | RunHydrateRowsMeta env => keepsBaseCenter env
  | StoreMeasurement rowId _ position => rowId <> resized \/ baseSlot position <> "baseCenter"
  | SetLastMeasured _ => True
  end.

(** The [isResized] flag of a row in the cache; a row without entry is not
    resized *)
Definition cachedIsResized (rowId : GridRowId) (st : State) : bool :=
  from_option isResized false (rowsHeightLookup st !! rowId).

End RowsMetaEnvironments.

Arguments Operation : clear implicits.

(** Further concrete inputs *)
Module Scenarios.

Definition threeColumns : GridColumnsState :=
  {| orderedFields := ["name"; "age"; "city"];
     lookup := ∅;
     columnVisibilityModel := {[ "age" := false ]} |}.

(** A grid of three rows with no provider and no processor *)
Definition plainEnv : Env unit unit :=
  {| rowHeightFromDensity := 52;
     densityFactor := tt;
     getRowHeightProp := None;
     getEstimatedRowHeight := None;
     getRowSpacing := None;
     currentPage_rows := [mkGridRowEntry "a" tt; mkGridRowEntry "b" tt; mkGridRowEntry "c" tt];
     pinnedRows := None;
     getRowIndexRelativeToVisibleRows := fun _ => None;
     applyRowHeightProcessors := fun initialHeights _ => initialHeights |}.

(** A grid of one row for which the height provider answers -10 *)
Definition negativeEnv : Env unit unit :=
  {| rowHeightFromDensity := 52;
     densityFactor := tt;
     getRowHeightProp := Some (fun _ => HeightValue (Some (-10)));
     getEstimatedRowHeight := None;
     getRowSpacing := None;
     currentPage_rows := [mkGridRowEntry "a" tt];
     pinnedRows := None;
     getRowIndexRelativeToVisibleRows := fun _ => Some 0;
     applyRowHeightProcessors := fun initialHeights _ => initialHeights |}.

End Scenarios.

(** ** Arithmetic of the size components *)

Lemma foldr_max_shift (l : list Z) (a x : Z) :
  foldr Z.max (Z.max a x) l = Z.max x (foldr Z.max a l).
Proof.
  induction l as [|y l IH]; simpl; [lia|]. rewrite IH. lia.
Qed.

Lemma foldl_max_foldr (l : list Z) : forall a, foldl Z.max a l = foldr Z.max a l.
Proof.
  induction l as [|y l IH]; intros a; simpl; [reflexivity|].
  rewrite IH, foldr_max_shift. lia.
Qed.

Lemma foldl_max_nonneg (l : list Z) :
  Forall (fun v => 0 <= v) l -> foldl Z.max 0 l = maximumOf l.
Proof.
  destruct l as [|x l]; intros Hl; simpl; [reflexivity|].
  inversion Hl; subst. rewrite Z.max_r by lia. apply foldl_max_foldr.
Qed.

Lemma foldl_sizeStep (l : list (string * Z)) : forall m o,
  foldl sizeStep (m, o) l =
  (foldl Z.max m (snd <$> filter (fun kv : string * Z => isBaseKey (fst kv) = true) l),
   o + sumOf (snd <$> filter (fun kv : string * Z => isBaseKey (fst kv) <> true) l)).
Proof.
  induction l as [|[k v] l IH]; intros m o; simpl.
  - f_equal. lia.
  - rewrite !filter_cons. simpl. destruct (isBaseKey k) eqn:Hk.
    + rewrite decide_True by reflexivity. rewrite decide_False by (intros H; apply H; reflexivity).
      rewrite IH. simpl. f_equal. f_equal.
      destruct (Z.gtb_spec v m); lia.
    + rewrite decide_False by discriminate. rewrite decide_True by discriminate.
      rewrite IH. unfold sumOf. simpl. f_equal. symmetry. apply Z.add_assoc.
Qed.

Lemma rowTotalHeight_eq (s : Sizes) :
  rowTotalHeight s = foldl Z.max 0 (baseComponents s) + sumOf (otherComponents s).
Proof.
  unfold rowTotalHeight, sizeParts. rewrite foldl_sizeStep. reflexivity.
Qed.

Lemma sumOf_nonneg (l : list Z) : Forall (fun v => 0 <= v) l -> 0 <= sumOf l.
Proof. induction 1; simpl; lia. Qed.

Lemma foldl_max_lower (l : list Z) : forall a, a <= foldl Z.max a l.
Proof.
  induction l as [|x l IH]; intros a; simpl; [lia|].
  specialize (IH (Z.max a x)). lia.
Qed.

Lemma components_nonneg (s : Sizes) (P : string * Z -> Prop) `{forall kv, Decision (P kv)} :
  nonNegativeSizes s -> Forall (fun v => 0 <= v) (snd <$> filter P (map_to_list s)).
Proof.
  intros Hs. apply Forall_fmap, Forall_forall. intros [k v] Hin. simpl.
  apply list_elem_of_filter in Hin as [_ Hin].
  apply elem_of_map_to_list in Hin. exact (Hs k v Hin).
Qed.

(** Under non-negative components the height in the hook is the total row
    height of the specification, and it is non-negative. *)
Lemma rowTotalHeight_spec (s : Sizes) :
  nonNegativeSizes s -> rowTotalHeight s = totalRowHeight s /\ 0 <= rowTotalHeight s.
Proof.
  intros Hs. rewrite rowTotalHeight_eq. unfold totalRowHeight.
  pose proof (components_nonneg s (fun kv => isBaseKey (fst kv) = true) Hs) as Hb.
  pose proof (components_nonneg s (fun kv => isBaseKey (fst kv) <> true) Hs) as Ho.
  fold (baseComponents s) in Hb. fold (otherComponents s) in Ho.
  split.
  - rewrite (foldl_max_nonneg _ Hb). reflexivity.
  - pose proof (foldl_max_lower (baseComponents s) 0).
    pose proof (sumOf_nonneg _ Ho). lia.
Qed.

(** ** Cumulative offsets *)

Lemma length_offsetsFrom (hs : list Z) : forall a, length (offsetsFrom a hs) = length hs.
Proof. induction hs as [|h hs IH]; intros a; simpl; [reflexivity|]. by rewrite IH. Qed.

Lemma offsetsFrom_lookup (hs : list Z) : forall a i h,
  hs !! i = Some h -> offsetsFrom a hs !! i = Some (a + sumOf (take i hs)).
Proof.
  induction hs as [|x hs IH]; intros a i h Hi; [discriminate|].
  destruct i as [|i]; simpl in *.
  - f_equal. lia.
  - rewrite (IH _ _ _ Hi). f_equal. lia.
Qed.

Lemma sumOf_app (l1 l2 : list Z) : sumOf (l1 ++ l2) = sumOf l1 + sumOf l2.
Proof. induction l1 as [|x l1 IH]; simpl; [reflexivity|]. rewrite IH. lia. Qed.

Lemma sumOf_take_S (hs : list Z) (i : nat) (h : Z) :
  hs !! i = Some h -> sumOf (take (S i) hs) = sumOf (take i hs) + h.
Proof.
  intros Hi. rewrite (take_S_r _ _ _ Hi), sumOf_app. simpl. lia.
Qed.

Section RowsMetaFacts.

Context {RowModel DensityFactor : Type}.
Local Abbreviation Env := (Env RowModel DensityFactor).
Local Abbreviation GridRowEntry := (GridRowEntry RowModel).
Implicit Types (env : Env) (st : State) (row : GridRowEntry) (rows : list GridRowEntry).

(** ** The reduce over the rows of the page *)

Lemma pageStep_eq env st ps acc row :
  pageStep env (st, ps, acc) row =
  (fst (calculateRowProcessedSizes env row st), ps ++ [acc],
   acc + rowTotalHeight (snd (calculateRowProcessedSizes env row st))).
Proof.
  unfold pageStep, rowTotalHeight.
  destruct (calculateRowProcessedSizes env row st) as [st' s]. simpl.
  destruct (sizeParts s) as [m o]. f_equal. lia.
Qed.

Lemma processedSizesOf_cons env st row rows :
  processedSizesOf env st (row :: rows) =
  snd (calculateRowProcessedSizes env row st)
    :: processedSizesOf env (fst (calculateRowProcessedSizes env row st)) rows.
Proof.
  simpl. destruct (calculateRowProcessedSizes env row st); reflexivity.
Qed.

Lemma stateAfterRows_cons env st row rows :
  stateAfterRows env st (row :: rows) =
  stateAfterRows env (fst (calculateRowProcessedSizes env row st)) rows.
Proof. reflexivity. Qed.

Lemma foldl_pageStep env rows : forall st ps acc,
  foldl (pageStep env) (st, ps, acc) rows =
  (stateAfterRows env st rows,
   ps ++ offsetsFrom acc (rowTotalHeight <$> processedSizesOf env st rows),
   acc + sumOf (rowTotalHeight <$> processedSizesOf env st rows)).
Proof.
  induction rows as [|row rows IH]; intros st ps acc.
  - simpl. rewrite app_nil_r. do 2 f_equal. lia.
  - cbn [foldl]. rewrite pageStep_eq, IH, processedSizesOf_cons, stateAfterRows_cons.
    rewrite fmap_cons. cbn [offsetsFrom sumOf foldr].
    rewrite <- app_assoc. simpl app. f_equal. symmetry. apply Z.add_assoc.
Qed.

Lemma length_processedSizesOf env rows : forall st,
  length (processedSizesOf env st rows) = length rows.
Proof.
  induction rows as [|row rows IH]; intros st; [reflexivity|].
  rewrite processedSizesOf_cons. simpl. by rewrite IH.
Qed.

(** What a run stores in the [rowsMeta] slice *)
Lemma rowsMeta_hydrateRowsMeta env st :
  rowsMeta (hydrateRowsMeta env st) =
  {| currentPageTotalHeight := sumOf (rowTotalHeight <$> pageSizes env st);
     positions := offsetsFrom 0 (rowTotalHeight <$> pageSizes env st) |}.
Proof.
  unfold hydrateRowsMeta, pageSizes. rewrite foldl_pageStep. simpl.
  match goal with |- context [if ?b then _ else _] => destruct b end; reflexivity.
Qed.

Lemma stateAfterRows_app env st rows1 rows2 :
  stateAfterRows env st (rows1 ++ rows2) =
  stateAfterRows env (stateAfterRows env st rows1) rows2.
Proof. apply foldl_app. Qed.

Lemma processedSizesOf_app env rows1 rows2 : forall st,
  processedSizesOf env st (rows1 ++ rows2) =
  processedSizesOf env st rows1
    ++ processedSizesOf env (stateAfterRows env st rows1) rows2.
Proof.
  induction rows1 as [|row rows1 IH]; intros st; [reflexivity|].
  rewrite <- app_comm_cons, !processedSizesOf_cons, stateAfterRows_cons, IH.
  reflexivity.
Qed.

(** The entry of a row right after [calculateRowProcessedSizes] ran on it
    holds the sizes the call returned. *)
Lemma calculateRowProcessedSizes_stored env row st :
  getRowInternalSizes (id row) (fst (calculateRowProcessedSizes env row st)) =
  Some (snd (calculateRowProcessedSizes env row st)).
Proof.
  unfold getRowInternalSizes, calculateRowProcessedSizes.
  destruct (baseRowHeightOf env row _ _) as [[[b n] a] h].
  simpl. rewrite lookup_insert_eq. reflexivity.
Qed.

Lemma offsetsFrom_snoc (hs : list Z) (h : Z) : forall a,
  offsetsFrom a (hs ++ [h]) = offsetsFrom a hs ++ [a + sumOf hs].
Proof.
  induction hs as [|x hs IH]; intros a; simpl.
  - f_equal. lia.
  - rewrite IH. do 3 f_equal. unfold sumOf. lia.
Qed.

(** The total height in terms of the loop of the hook: with no row on the
    page the positions are empty and the total height is 0; otherwise the
    total height is the last position plus [maximumBaseSize + otherSizes] of
    the sizes computed for the last row, which are the sizes its cache entry
    holds when the reduce over the page ends. *)
Lemma currentPageTotalHeight_last env st :
  let meta := rowsMeta (hydrateRowsMeta env st) in
  match last (currentPage_rows env) with
  | None => positions meta = [] /\ currentPageTotalHeight meta = 0
  | Some lastRow =>
      exists (p : Z) (s : Sizes),
        last (positions meta) = Some p /\
        last (pageSizes env st) = Some s /\
        getRowInternalSizes (id lastRow)
          (stateAfterRows env (set_hasRowWithAutoHeight false st) (currentPage_rows env))
          = Some s /\
        currentPageTotalHeight meta = p + rowTotalHeight s
  end.
Proof.
  intros meta. subst meta. rewrite rowsMeta_hydrateRowsMeta. unfold pageSizes. simpl.
  destruct (currentPage_rows env) as [|lastRow rows _] using rev_ind; [split; reflexivity|].
  rewrite last_snoc, processedSizesOf_app, stateAfterRows_app.
  set (st1 := stateAfterRows env (set_hasRowWithAutoHeight false st) rows).
  rewrite (processedSizesOf_cons env st1 lastRow []). simpl processedSizesOf.
  exists (sumOf (rowTotalHeight <$> processedSizesOf env (set_hasRowWithAutoHeight false st) rows)).
  exists (snd (calculateRowProcessedSizes env lastRow st1)).
  rewrite fmap_app. cbn [fmap list_fmap]. rewrite offsetsFrom_snoc, !last_snoc, sumOf_app.
  split; [f_equal; apply Z.add_0_l|].
  split; [reflexivity|].
  split; [apply calculateRowProcessedSizes_stored|].
  unfold sumOf at 2. cbn [foldr]. rewrite Z.add_0_r. reflexivity.
Qed.

(** C1 (amended): after a run of [hydrateRowsMeta], when the page has no
    row the positions are empty and the total height of the page is 0; when
    the page has a last row and every component of the sizes computed for
    it is non-negative, the total height of the page is the last position
    plus the total height of that row, the maximum of its [base*] components
    plus the sum of its other components. *)
Theorem currentPageTotalHeight_last_row env st :
  let meta := rowsMeta (hydrateRowsMeta env st) in
  match last (currentPage_rows env) with
  | None => positions meta = [] /\ currentPageTotalHeight meta = 0
  | Some lastRow =>
      exists (p : Z) (s : Sizes),
        last (positions meta) = Some p /\
        last (pageSizes env st) = Some s /\
        getRowInternalSizes (id lastRow)
          (stateAfterRows env (set_hasRowWithAutoHeight false st) (currentPage_rows env))
          = Some s /\
        (nonNegativeSizes s -> currentPageTotalHeight meta = p + totalRowHeight s)
  end.
Proof.
  intros meta. subst meta.
  pose proof (currentPageTotalHeight_last env st) as H. cbv zeta in H.
  destruct (last (currentPage_rows env)) as [lastRow|]; [|exact H].
  destruct H as (p & s & Hp & Hs & Hcache & Htotal).
  exists p, s. split; [exact Hp|]. split; [exact Hs|]. split; [exact Hcache|].
  intros Hnn. rewrite Htotal. f_equal. apply (rowTotalHeight_spec s Hnn).
Qed.

Lemma offsetsFrom_lower (hs : list Z) :
  Forall (fun h => 0 <= h) hs ->
  forall a i p, offsetsFrom a hs !! i = Some p -> a <= p.
Proof.
  induction 1 as [|h hs Hh Hhs IH]; intros a i p Hi; destruct i as [|i];
    simpl in Hi; try discriminate.
  - inversion Hi; lia.
  - specialize (IH _ _ _ Hi). lia.
Qed.

Lemma offsetsFrom_monotone (hs : list Z) :
  Forall (fun h => 0 <= h) hs ->
  forall a i j p q, (i <= j)%nat ->
    offsetsFrom a hs !! i = Some p -> offsetsFrom a hs !! j = Some q -> p <= q.
Proof.
  induction 1 as [|h hs Hh Hhs IH]; intros a i j p q Hij Hi Hj;
    destruct i as [|i], j as [|j]; simpl in Hi, Hj; try discriminate; try lia.
  - inversion Hi; inversion Hj; lia.
  - inversion Hi; subst. pose proof (offsetsFrom_lower hs Hhs _ _ _ Hj). lia.
  - apply (IH (a + h) i j); [lia|assumption..].
Qed.

(** C2: after a run of [hydrateRowsMeta] the positions have one entry per
    row of the page; when every component of the sizes computed for the rows
    of the page is non-negative, consecutive positions differ by the total
    height of the row between them, which is the maximum of its [base*]
    components plus the sum of its other components, and the positions are
    non-decreasing. *)
Theorem positions_increments env st :
  let meta := rowsMeta (hydrateRowsMeta env st) in
  length (positions meta) = length (currentPage_rows env) /\
  length (pageSizes env st) = length (currentPage_rows env) /\
  (Forall nonNegativeSizes (pageSizes env st) ->
     (forall (i : nat) (p q : Z) (s : Sizes),
        positions meta !! i = Some p ->
        positions meta !! S i = Some q ->
        pageSizes env st !! i = Some s ->
        q - p = totalRowHeight s /\ 0 <= q - p) /\
     (forall (i j : nat) (p q : Z),
        (i <= j)%nat ->
        positions meta !! i = Some p ->
        positions meta !! j = Some q ->
        p <= q)).
Proof.
  intros meta. subst meta. rewrite rowsMeta_hydrateRowsMeta. simpl.
  assert (Hlen : length (pageSizes env st) = length (currentPage_rows env))
    by apply length_processedSizesOf.
  split; [by rewrite length_offsetsFrom, length_fmap|].
  split; [exact Hlen|].
  intros Hnn. split.
  - intros i p q s Hp Hq Hs.
    assert (Hh : (rowTotalHeight <$> pageSizes env st) !! i = Some (rowTotalHeight s))
      by (rewrite list_lookup_fmap, Hs; reflexivity).
    rewrite (offsetsFrom_lookup _ 0 i _ Hh) in Hp.
    destruct (lookup_lt_is_Some_2 (rowTotalHeight <$> pageSizes env st) (S i)) as [h' Hh'].
    { rewrite <- (length_offsetsFrom _ 0). eapply lookup_lt_Some; eassumption. }
    rewrite (offsetsFrom_lookup _ 0 (S i) _ Hh') in Hq.
    rewrite (sumOf_take_S _ _ _ Hh) in Hq.
    inversion Hp; inversion Hq; subst.
    assert (Hs' : nonNegativeSizes s).
    { eapply Forall_lookup_1; eassumption. }
    destruct (rowTotalHeight_spec s Hs') as [Heq Hge]. rewrite <- Heq. lia.
  - apply offsetsFrom_monotone. apply Forall_fmap.
    eapply Forall_impl; [exact Hnn|]. intros s Hs. simpl.
    apply (rowTotalHeight_spec s Hs).
Qed.

(** ** Measurements, the watermark and the accessors *)

(** C4: [storeMeasuredRowHeight] leaves the whole state as it is (cache and
    count of scheduled recomputations) when the row is absent from the cache
    or its entry is not flagged [autoHeight]; otherwise the entry of the row
    gets [needsFirstMeasurement = false] and the component
    [base<Position>] set to the measured height, nothing else in the cache
    changes, no recomputation runs at once, and the debounced recomputation
    is called exactly when the component stored before differs from the
    measured height. *)
Theorem storeMeasuredRowHeight_spec (rowId : GridRowId) (height : Z) (position : string) st :
  let st' := storeMeasuredRowHeight rowId height position st in
  ((rowsHeightLookup st !! rowId = None \/
    exists entry, rowsHeightLookup st !! rowId = Some entry /\ autoHeight entry = false) ->
   st' = st) /\
  (forall entry,
     rowsHeightLookup st !! rowId = Some entry -> autoHeight entry = true ->
     exists entry',
       rowsHeightLookup st' !! rowId = Some entry' /\
       needsFirstMeasurement entry' = false /\
       sizes entry' !! baseSlot position = Some height /\
       (forall key, key <> baseSlot position -> sizes entry' !! key = sizes entry !! key) /\
       isResized entry' = isResized entry /\
       autoHeight entry' = true /\
       (forall other, other <> rowId ->
          rowsHeightLookup st' !! other = rowsHeightLookup st !! other) /\
       rowsMeta st' = rowsMeta st /\
       lastMeasuredRowIndex st' = lastMeasuredRowIndex st /\
       (sizes entry !! baseSlot position <> Some height ->
          debouncedCalls st' = S (debouncedCalls st)) /\
       (sizes entry !! baseSlot position = Some height ->
          debouncedCalls st' = debouncedCalls st)).
Proof.
  intros st'. subst st'. unfold storeMeasuredRowHeight. split.
  - intros [Hnone | (entry & Hsome & Hauto)].
    + rewrite Hnone. reflexivity.
    + rewrite Hsome, Hauto. reflexivity.
  - intros entry Hsome Hauto. rewrite Hsome, Hauto. simpl.
    eexists. split.
    { destruct (differsFrom _ _); simpl; apply lookup_insert_eq. }
    simpl. split; [reflexivity|].
    split; [apply lookup_insert_eq|].
    split; [intros key Hkey; apply lookup_insert_ne; congruence|].
    split; [reflexivity|]. split; [reflexivity|].
    split.
    { intros other Hother. destruct (differsFrom _ _); simpl;
        apply lookup_insert_ne; congruence. }
    split; [destruct (differsFrom _ _); reflexivity|].
    split; [destruct (differsFrom _ _); reflexivity|].
    unfold differsFrom. destruct (sizes entry !! baseSlot position) as [v|].
    + destruct (Z.eqb_spec v height) as [->|Hne]; simpl; split; intros H;
        congruence.
    + simpl. split; intros H; congruence.
Qed.

(** C9: [setRowHeight] on a row that the cache does not hold throws the
    [TypeError] of reading a property of [undefined]; it neither returns nor
    raises an error of its own. *)
Theorem setRowHeight_missing_entry env (rowId : GridRowId) (height : Z) st :
  rowsHeightLookup st !! rowId = None ->
  setRowHeight env rowId height st = Throw TypeError.
Proof. intros Hnone. unfold setRowHeight. rewrite Hnone. reflexivity. Qed.

(** C10 (amended): for a row that the cache does not hold,
    [rowHasAutoHeight] returns [false]; [getRowHeight] returns the row
    height derived from the density, and returns normally, when the id is
    not the name of a property that every object inherits. *)
Theorem accessors_missing_entry env (rowId : GridRowId) st :
  rowsHeightLookup st !! rowId = None ->
  rowHasAutoHeight rowId st = false /\
  (inheritedProperty rowId = false ->
   getRowHeight env rowId st = Normal (Some (rowHeightFromDensity env))).
Proof.
  intros Hnone. unfold getRowHeight, rowHasAutoHeight. rewrite Hnone.
  split; [reflexivity|]. intros Hown. rewrite Hown. reflexivity.
Qed.

(** ** One call of [calculateRowProcessedSizes] *)

Lemma baseRowHeightOf_flag env row (flag : bool) (entry : HeightEntry) :
  baseRowHeightOf env row flag entry =
  (fst (fst (fst (baseRowHeightOf env row false entry))),
   snd (fst (fst (baseRowHeightOf env row false entry))),
   snd (fst (baseRowHeightOf env row false entry)),
   flag || snd (baseRowHeightOf env row false entry)).
Proof.
  unfold baseRowHeightOf.
  destruct (isResized entry); [by rewrite orb_false_r|].
  destruct (getRowHeightProp env) as [f|]; [|by rewrite orb_false_r].
  destruct (f _); simpl; [by rewrite orb_true_r|by rewrite orb_false_r].
Qed.

Lemma baseRowHeightOf_auto env st row :
  snd (baseRowHeightOf env row false (entryOf env st row)) = takesAutoBranch env st row.
Proof.
  unfold baseRowHeightOf, takesAutoBranch, entryOf.
  destruct (rowsHeightLookup st !! id row) as [e|]; simpl.
  - destruct (isResized e); [reflexivity|]. simpl.
    destruct (getRowHeightProp env) as [f|]; [|reflexivity].
    destruct (f _); reflexivity.
  - destruct (getRowHeightProp env) as [f|]; [|reflexivity].
    destruct (f _); reflexivity.
Qed.

Lemma calculateRowProcessedSizes_eq env row st :
  calculateRowProcessedSizes env row st =
  (set_hasRowWithAutoHeight (hasRowWithAutoHeight st || takesAutoBranch env st row)
     (set_rowsHeightLookup
        (<[id row := processEntry env row (entryOf env st row)]> (rowsHeightLookup st)) st),
   sizes (processEntry env row (entryOf env st row))).
Proof.
  unfold calculateRowProcessedSizes, processEntry. fold (entryOf env st row).
  rewrite baseRowHeightOf_flag, <- baseRowHeightOf_auto.
  destruct (baseRowHeightOf env row false (entryOf env st row)) as [[[b n] a] h].
  reflexivity.
Qed.

Lemma isResized_processEntry env row (entry : HeightEntry) :
  isResized (processEntry env row entry) = isResized entry.
Proof.
  unfold processEntry.
  destruct (baseRowHeightOf env row false entry) as [[[b n] a] h]. reflexivity.
Qed.

(** A call leaves the [isResized] flag of every row as it is. *)
Lemma calculateRowProcessedSizes_resized env row st (rowId : GridRowId) :
  from_option isResized false
    (rowsHeightLookup (fst (calculateRowProcessedSizes env row st)) !! rowId) =
  from_option isResized false (rowsHeightLookup st !! rowId).
Proof.
  rewrite calculateRowProcessedSizes_eq. simpl.
  destruct (decide (id row = rowId)) as [<-|Hne].
  - rewrite lookup_insert_eq. simpl. rewrite isResized_processEntry.
    unfold entryOf. destruct (rowsHeightLookup st !! id row); reflexivity.
  - rewrite lookup_insert_ne by exact Hne. reflexivity.
Qed.

Lemma takesAutoBranch_ext env st1 st2 row :
  (forall rowId,
     from_option isResized false (rowsHeightLookup st1 !! rowId) =
     from_option isResized false (rowsHeightLookup st2 !! rowId)) ->
  takesAutoBranch env st1 row = takesAutoBranch env st2 row.
Proof. intros H. unfold takesAutoBranch. rewrite H. reflexivity. Qed.

Lemma existsb_pointwise {A : Type} (f g : A -> bool) (l : list A) :
  (forall x, f x = g x) -> existsb f l = existsb g l.
Proof. intros H. induction l as [|x l IH]; simpl; [reflexivity|]. by rewrite H, IH. Qed.

Lemma stateAfterRows_flag env rows : forall st,
  hasRowWithAutoHeight (stateAfterRows env st rows) =
  hasRowWithAutoHeight st || existsb (takesAutoBranch env st) rows.
Proof.
  induction rows as [|row rows IH]; intros st.
  - simpl. by rewrite orb_false_r.
  - rewrite stateAfterRows_cons, IH. simpl existsb.
    rewrite calculateRowProcessedSizes_eq at 1. simpl hasRowWithAutoHeight.
    rewrite <- orb_assoc. do 2 f_equal.
    apply existsb_pointwise. intros r.
    apply takesAutoBranch_ext. intros rowId. apply calculateRowProcessedSizes_resized.
Qed.

Lemma stateAfterRows_lastMeasuredRowIndex env rows : forall st,
  lastMeasuredRowIndex (stateAfterRows env st rows) = lastMeasuredRowIndex st.
Proof.
  induction rows as [|row rows IH]; intros st; [reflexivity|].
  rewrite stateAfterRows_cons, IH, calculateRowProcessedSizes_eq. reflexivity.
Qed.

(** The state one run of [hydrateRowsMeta] leaves *)
Lemma hydrateRowsMeta_eq env st :
  hydrateRowsMeta env st =
  let st' :=
    set_rowsMeta
      {| currentPageTotalHeight := sumOf (rowTotalHeight <$> pageSizes env st);
         positions := offsetsFrom 0 (rowTotalHeight <$> pageSizes env st) |}
      (stateAfterRows env (set_hasRowWithAutoHeight false st) (processedRows env)) in
  if negb (hasRowWithAutoHeight st') then set_lastMeasuredRowIndex Infinity st' else st'.
Proof.
  unfold hydrateRowsMeta, pageSizes, processedRows. rewrite foldl_pageStep.
  rewrite !stateAfterRows_app. reflexivity.
Qed.

Lemma Num_le_refl (n : Num) : Num_le n n.
Proof. destruct n; simpl; [lia|exact I]. Qed.

(** C5: [setLastMeasuredRowIndex] never moves the watermark back; it changes
    the watermark only when the last run found a row in auto-height mode and
    the index is strictly greater than the watermark, and then the watermark
    becomes the index.  A run of [hydrateRowsMeta] records whether one of the
    rows it processes takes the ['auto'] branch; when none does, the run sets
    the watermark to [Infinity], otherwise it leaves the watermark as it is. *)
Theorem lastMeasuredRowIndex_advances :
  (forall (index : Num) st,
     let st' := setLastMeasuredRowIndex index st in
     Num_le (lastMeasuredRowIndex st) (lastMeasuredRowIndex st') /\
     (lastMeasuredRowIndex st' <> lastMeasuredRowIndex st ->
        hasRowWithAutoHeight st = true /\
        Num_gt index (lastMeasuredRowIndex st) = true) /\
     (hasRowWithAutoHeight st = true ->
      Num_gt index (lastMeasuredRowIndex st) = true ->
        lastMeasuredRowIndex st' = index) /\
     rowsHeightLookup st' = rowsHeightLookup st /\
     hasRowWithAutoHeight st' = hasRowWithAutoHeight st) /\
  (forall env st,
     let st' := hydrateRowsMeta env st in
     hasRowWithAutoHeight st' = existsb (takesAutoBranch env st) (processedRows env) /\
     (hasRowWithAutoHeight st' = false -> lastMeasuredRowIndex st' = Infinity) /\
     (hasRowWithAutoHeight st' = true ->
        lastMeasuredRowIndex st' = lastMeasuredRowIndex st) /\
     Num_le (lastMeasuredRowIndex st) (lastMeasuredRowIndex st')).
Proof.
  split.
  - intros index st st'. subst st'. unfold setLastMeasuredRowIndex.
    destruct (hasRowWithAutoHeight st) eqn:Hflag; simpl.
    + destruct (Num_gt index (lastMeasuredRowIndex st)) eqn:Hgt; simpl.
      * repeat split; try reflexivity; try assumption.
        destruct index as [i|], (lastMeasuredRowIndex st) as [w|]; simpl in *;
          try discriminate; try exact I.
        destruct (Z.gtb_spec i w); [lia|discriminate].
      * repeat split; try reflexivity; try congruence. apply Num_le_refl.
    + repeat split; try reflexivity; try congruence. apply Num_le_refl.
  - intros env st st'. subst st'. rewrite hydrateRowsMeta_eq.
    set (st3 := stateAfterRows env (set_hasRowWithAutoHeight false st) (processedRows env)).
    assert (Hflag : hasRowWithAutoHeight st3
                    = existsb (takesAutoBranch env st) (processedRows env)).
    { unfold st3. rewrite stateAfterRows_flag. simpl.
      apply existsb_pointwise; intros r; reflexivity. }
    assert (Hwm : lastMeasuredRowIndex st3 = lastMeasuredRowIndex st).
    { unfold st3. rewrite stateAfterRows_lastMeasuredRowIndex. reflexivity. }
    cbv zeta. simpl. rewrite <- Hflag.
    destruct (hasRowWithAutoHeight st3) eqn:Hex; simpl; rewrite ?Hex, ?Hwm.
    + repeat split; try congruence. apply Num_le_refl.
    + repeat split; try congruence. destruct (lastMeasuredRowIndex st); exact I.
Qed.

(** ** The base components across a call *)

Lemma existingBaseSizes_lookup (s : Sizes) (key : string) :
  isBaseKey key = true -> existingBaseSizes s !! key = s !! key.
Proof.
  intros Hkey. unfold existingBaseSizes. rewrite map_lookup_filter.
  destruct (s !! key) as [v|]; [|reflexivity]. simpl.
  rewrite option_guard_True by exact Hkey. reflexivity.
Qed.

Lemma existingBaseSizes_idem (s : Sizes) :
  existingBaseSizes (existingBaseSizes s) = existingBaseSizes s.
Proof. unfold existingBaseSizes. apply map_filter_filter_l. auto. Qed.

Lemma existingBaseSizes_insert_base (s : Sizes) (key : string) (v : Z) :
  isBaseKey key = true ->
  existingBaseSizes (<[key := v]> s) = <[key := v]> (existingBaseSizes s).
Proof. intros Hkey. unfold existingBaseSizes. by apply map_filter_insert_True. Qed.

Lemma existingBaseSizes_insert_other (s : Sizes) (key : string) (v : Z) :
  isBaseKey key = false -> existingBaseSizes (<[key := v]> s) = existingBaseSizes s.
Proof.
  intros Hkey. unfold existingBaseSizes. apply map_filter_insert_not.
  intros y. simpl. rewrite Hkey. discriminate.
Qed.

Lemma existingBaseSizes_withBaseCenter (b : option Z) (s : Sizes) :
  existingBaseSizes (withBaseCenter b s) = withBaseCenter b (existingBaseSizes s).
Proof.
  destruct b as [h|]; simpl.
  - by apply existingBaseSizes_insert_base.
  - unfold existingBaseSizes. apply map_filter_delete.
Qed.

Lemma existingBaseSizes_withSpacing env row (s : Sizes) :
  existingBaseSizes (withSpacing env row s) = existingBaseSizes s.
Proof.
  unfold withSpacing. destruct (getRowSpacing env) as [f|]; [|reflexivity].
  rewrite !existingBaseSizes_insert_other by reflexivity. reflexivity.
Qed.

Lemma withSpacing_lookup env row (s : Sizes) (key : string) :
  isBaseKey key = true -> withSpacing env row s !! key = s !! key.
Proof.
  intros Hkey. unfold withSpacing. destruct (getRowSpacing env) as [f|]; [|reflexivity].
  rewrite !lookup_insert_ne; [reflexivity|intros <-; discriminate..].
Qed.

Lemma withBaseCenter_lookup (b : option Z) (s : Sizes) :
  withBaseCenter b s !! "baseCenter" = b.
Proof.
  destruct b as [h|]; simpl; [apply lookup_insert_eq|apply lookup_delete_eq].
Qed.

Lemma withBaseCenter_idem (b : option Z) (s : Sizes) :
  withBaseCenter b (withBaseCenter b s) = withBaseCenter b s.
Proof.
  destruct b as [h|]; simpl; [apply insert_insert_eq|].
  apply delete_id, lookup_delete_eq.
Qed.

(** The base row height the cascade chooses for a resized entry is the
    [baseCenter] the entry holds. *)
Lemma baseRowHeightOf_resized env row (flag : bool) (entry : HeightEntry) :
  isResized entry = true ->
  baseRowHeightOf env row flag entry =
  (sizes entry !! "baseCenter", needsFirstMeasurement entry, autoHeight entry, flag).
Proof. intros Hres. unfold baseRowHeightOf. rewrite Hres. reflexivity. Qed.

Lemma processEntry_resized env row (entry : HeightEntry) :
  keepsBaseCenter env ->
  isResized entry = true ->
  isResized (processEntry env row entry) = true /\
  sizes (processEntry env row entry) !! "baseCenter" = sizes entry !! "baseCenter".
Proof.
  intros Hkeep Hres. split; [by rewrite isResized_processEntry|].
  unfold processEntry. rewrite (baseRowHeightOf_resized _ _ _ _ Hres). simpl.
  rewrite Hkeep, withSpacing_lookup by reflexivity. apply withBaseCenter_lookup.
Qed.

(** ** Resized rows *)

Lemma calculateRowProcessedSizes_frozen env row st (rowId : GridRowId) (h : Z) :
  keepsBaseCenter env ->
  (exists entry, rowsHeightLookup st !! rowId = Some entry /\
                 isResized entry = true /\ sizes entry !! "baseCenter" = Some h) ->
  exists entry, rowsHeightLookup (fst (calculateRowProcessedSizes env row st)) !! rowId
                  = Some entry /\
                isResized entry = true /\ sizes entry !! "baseCenter" = Some h.
Proof.
  intros Hkeep (entry & Hlook & Hres & Hbase).
  rewrite calculateRowProcessedSizes_eq. simpl.
  destruct (decide (id row = rowId)) as [Heq|Hne].
  - rewrite Heq, lookup_insert_eq. eexists. split; [reflexivity|].
    unfold entryOf. rewrite Heq, Hlook. simpl.
    destruct (processEntry_resized env row entry Hkeep Hres) as [H1 H2].
    split; [exact H1|]. by rewrite H2.
  - rewrite lookup_insert_ne by exact Hne. eauto.
Qed.

Lemma stateAfterRows_frozen env rows (rowId : GridRowId) (h : Z) :
  keepsBaseCenter env -> forall st,
  (exists entry, rowsHeightLookup st !! rowId = Some entry /\
                 isResized entry = true /\ sizes entry !! "baseCenter" = Some h) ->
  exists entry, rowsHeightLookup (stateAfterRows env st rows) !! rowId = Some entry /\
                isResized entry = true /\ sizes entry !! "baseCenter" = Some h.
Proof.
  intros Hkeep. induction rows as [|row rows IH]; intros st Hst; [exact Hst|].
  rewrite stateAfterRows_cons. apply IH.
  by apply calculateRowProcessedSizes_frozen.
Qed.

Lemma rowsHeightLookup_hydrateRowsMeta env st :
  rowsHeightLookup (hydrateRowsMeta env st) =
  rowsHeightLookup
    (stateAfterRows env (set_hasRowWithAutoHeight false st) (processedRows env)).
Proof.
  rewrite hydrateRowsMeta_eq. cbv zeta.
  match goal with |- context [if ?b then _ else _] => destruct b end; reflexivity.
Qed.

Lemma hydrateRowsMeta_frozen env st (rowId : GridRowId) (h : Z) :
  keepsBaseCenter env ->
  (exists entry, rowsHeightLookup st !! rowId = Some entry /\
                 isResized entry = true /\ sizes entry !! "baseCenter" = Some h) ->
  exists entry, rowsHeightLookup (hydrateRowsMeta env st) !! rowId = Some entry /\
                isResized entry = true /\ sizes entry !! "baseCenter" = Some h.
Proof.
  intros Hkeep Hst. rewrite rowsHeightLookup_hydrateRowsMeta.
  apply stateAfterRows_frozen; assumption.
Qed.

Lemma perform_frozen (op : Operation RowModel DensityFactor) st (rowId : GridRowId) (h : Z) :
  sparesHeightOf rowId op ->
  (exists entry, rowsHeightLookup st !! rowId = Some entry /\
                 isResized entry = true /\ sizes entry !! "baseCenter" = Some h) ->
  exists entry, rowsHeightLookup (perform op st) !! rowId = Some entry /\
                isResized entry = true /\ sizes entry !! "baseCenter" = Some h.
Proof.
  intros Hop Hinv. destruct op as [env|measuredId height position|index]; simpl in *.
  - by apply hydrateRowsMeta_frozen.
  - destruct Hinv as (entry & Hlook & Hres & Hbase).
    unfold storeMeasuredRowHeight.
    destruct (rowsHeightLookup st !! measuredId) as [measured|] eqn:Hmeasured; [|eauto].
    destruct (autoHeight measured); simpl; [|eauto].
    assert (Hgoal : exists e,
              <[measuredId :=
                  {| isResized := isResized measured;
                     sizes := <[baseSlot position := height]> (sizes measured);
                     autoHeight := true;
                     needsFirstMeasurement := false |}]> (rowsHeightLookup st) !! rowId
                = Some e /\
              isResized e = true /\ sizes e !! "baseCenter" = Some h).
    { destruct (decide (measuredId = rowId)) as [->|Hne].
      - rewrite lookup_insert_eq. eexists. split; [reflexivity|]. simpl.
        rewrite Hlook in Hmeasured. inversion Hmeasured; subst measured.
        split; [exact Hres|]. destruct Hop as [Hop|Hop]; [contradiction|].
        rewrite lookup_insert_ne by exact Hop. exact Hbase.
      - rewrite lookup_insert_ne by exact Hne. eauto. }
    destruct (differsFrom _ _); exact Hgoal.
  - unfold setLastMeasuredRowIndex.
    destruct (hasRowWithAutoHeight st && Num_gt index (lastMeasuredRowIndex st)); exact Hinv.
Qed.

(** C3 (amended): when the [rowHeight] processors return [baseCenter] as
    they receive it, [setRowHeight] on a row of the cache returns normally
    and, after it and after every later run of [hydrateRowsMeta], under any
    props and page, the entry of the row is flagged resized and its
    [baseCenter] is the height that was set, whatever the height provider
    answers; between the runs the watermark may be updated and measurements
    may be stored, but none for the center of that row. *)
Theorem setRowHeight_keeps_height env (rowId : GridRowId) (h : Z) st
    (later : list (Operation RowModel DensityFactor)) :
  is_Some (rowsHeightLookup st !! rowId) ->
  keepsBaseCenter env ->
  Forall (sparesHeightOf rowId) later ->
  exists st',
    setRowHeight env rowId h st = Normal st' /\
    forall done, done `prefix_of` later ->
      cachedIsResized rowId (foldl (fun s op => perform op s) st' done) = true /\
      cachedBaseCenter rowId (foldl (fun s op => perform op s) st' done) = Some h.
Proof.
  intros [entry Hlook] Hkeep Hlater. unfold setRowHeight. rewrite Hlook.
  eexists. split; [reflexivity|].
  intros done [rest ->]. apply Forall_app in Hlater as [Hdone _].
  match goal with |- context [foldl _ ?s done] => set (st1 := s) end.
  assert (Hinv : exists e, rowsHeightLookup st1 !! rowId = Some e /\
                           isResized e = true /\ sizes e !! "baseCenter" = Some h).
  { apply hydrateRowsMeta_frozen; [exact Hkeep|]. simpl.
    rewrite lookup_insert_eq. eexists. split; [reflexivity|]. simpl.
    split; [reflexivity|apply lookup_insert_eq]. }
  clearbody st1. revert st1 Hinv.
  induction Hdone as [|op done Hop Hdone IH]; intros st1 Hinv.
  - destruct Hinv as (e & Hl & Hr & Hb). simpl.
    unfold cachedIsResized, cachedBaseCenter. rewrite Hl. simpl. by split.
  - simpl. apply IH. by apply perform_frozen.
Qed.

(** ** Two runs in a row *)

Lemma processEntry_baseCenter env row (entry : HeightEntry) :
  keepsBaseSizes env ->
  sizes (processEntry env row entry) !! "baseCenter" =
  fst (fst (fst (baseRowHeightOf env row false entry))).
Proof.
  intros Hkeep. unfold processEntry.
  destruct (baseRowHeightOf env row false entry) as [[[b n] a] h]. simpl.
  rewrite <- (existingBaseSizes_lookup _ "baseCenter") by reflexivity.
  rewrite Hkeep, existingBaseSizes_lookup, withSpacing_lookup by reflexivity.
  apply withBaseCenter_lookup.
Qed.

Lemma processEntry_existingBaseSizes env row (entry : HeightEntry) :
  keepsBaseSizes env ->
  existingBaseSizes (sizes (processEntry env row entry)) =
  withBaseCenter (fst (fst (fst (baseRowHeightOf env row false entry))))
    (existingBaseSizes (sizes entry)).
Proof.
  intros Hkeep. unfold processEntry.
  destruct (baseRowHeightOf env row false entry) as [[[b n] a] h]. simpl.
  rewrite Hkeep, existingBaseSizes_withSpacing, existingBaseSizes_withBaseCenter.
  by rewrite existingBaseSizes_idem.
Qed.

(** The cascade gives the same answer on the entry a call has left. *)
Lemma baseRowHeightOf_processEntry env row (entry : HeightEntry) :
  keepsBaseSizes env ->
  baseRowHeightOf env row false (processEntry env row entry) =
  baseRowHeightOf env row false entry.
Proof.
  intros Hkeep.
  pose proof (processEntry_baseCenter env row entry Hkeep) as Hb.
  unfold baseRowHeightOf at 1. rewrite isResized_processEntry, Hb.
  unfold processEntry, baseRowHeightOf.
  destruct (isResized entry); [reflexivity|].
  destruct (getRowHeightProp env) as [f|]; [|reflexivity].
  destruct (f _); [|reflexivity]. simpl.
  destruct (needsFirstMeasurement entry); reflexivity.
Qed.

(** A call on the entry that the same call has left changes nothing. *)
Lemma processEntry_idem env row (entry : HeightEntry) :
  keepsBaseSizes env ->
  processEntry env row (processEntry env row entry) = processEntry env row entry.
Proof.
  intros Hkeep. unfold processEntry at 1.
  rewrite (baseRowHeightOf_processEntry env row entry Hkeep).
  rewrite (processEntry_existingBaseSizes env row entry Hkeep).
  rewrite isResized_processEntry. unfold processEntry.
  destruct (baseRowHeightOf env row false entry) as [[[b n] a] h]. simpl.
  rewrite withBaseCenter_idem. reflexivity.
Qed.

Lemma stateAfterRows_lookup_other env rows (rowId : GridRowId) : forall st,
  rowId ∉ id <$> rows ->
  rowsHeightLookup (stateAfterRows env st rows) !! rowId = rowsHeightLookup st !! rowId.
Proof.
  induction rows as [|row rows IH]; intros st Hnot; [reflexivity|].
  rewrite fmap_cons in Hnot. apply not_elem_of_cons in Hnot as [Hne Hnot].
  rewrite stateAfterRows_cons, IH by exact Hnot.
  rewrite calculateRowProcessedSizes_eq. simpl.
  apply lookup_insert_ne. congruence.
Qed.

Lemma entryOf_calculateRowProcessedSizes env st row row' :
  id row <> id row' ->
  entryOf env (fst (calculateRowProcessedSizes env row st)) row' = entryOf env st row'.
Proof.
  intros Hne. unfold entryOf. rewrite calculateRowProcessedSizes_eq. simpl.
  rewrite lookup_insert_ne by exact Hne. reflexivity.
Qed.

Lemma stateAfterRows_lookup_row env rows : forall st row,
  NoDup (id <$> rows) ->
  row ∈ rows ->
  rowsHeightLookup (stateAfterRows env st rows) !! id row =
  Some (processEntry env row (entryOf env st row)).
Proof.
  induction rows as [|r rows IH]; intros st row Hnd Hin; [by apply elem_of_nil in Hin|].
  rewrite fmap_cons in Hnd. apply NoDup_cons in Hnd as [Hr Hnd].
  rewrite stateAfterRows_cons. apply elem_of_cons in Hin as [->|Hin].
  - rewrite stateAfterRows_lookup_other by exact Hr.
    rewrite calculateRowProcessedSizes_eq. simpl. apply lookup_insert_eq.
  - rewrite (IH _ _ Hnd Hin). rewrite entryOf_calculateRowProcessedSizes; [reflexivity|].
    intros Heq. apply Hr. rewrite Heq. by apply list_elem_of_fmap_2.
Qed.

Lemma processedSizesOf_stable env rows :
  keepsBaseSizes env ->
  NoDup (id <$> rows) ->
  forall st st2,
    (forall row, row ∈ rows ->
       rowsHeightLookup st2 !! id row = Some (processEntry env row (entryOf env st row))) ->
    processedSizesOf env st2 rows = processedSizesOf env st rows.
Proof.
  intros Hkeep. induction rows as [|r rows IH]; intros Hnd st st2 Hst2; [reflexivity|].
  rewrite fmap_cons in Hnd. apply NoDup_cons in Hnd as [Hr Hnd].
  rewrite !processedSizesOf_cons. f_equal.
  - rewrite !calculateRowProcessedSizes_eq. simpl.
    unfold entryOf at 1. rewrite (Hst2 r) by apply list_elem_of_here. simpl.
    by rewrite processEntry_idem.
  - apply (IH Hnd). intros row Hin.
    assert (Hne : id r <> id row).
    { intros Heq. apply Hr. rewrite Heq. by apply list_elem_of_fmap_2. }
    rewrite entryOf_calculateRowProcessedSizes by exact Hne.
    rewrite calculateRowProcessedSizes_eq. simpl.
    rewrite lookup_insert_ne by exact Hne.
    apply Hst2. by apply list_elem_of_further.
Qed.

(** C8 (amended): when the [rowHeight] processors return the [base*]
    components as they receive them, the rows of the page have distinct ids
    and no pinned row has the id of a row of the page, a second run of
    [hydrateRowsMeta] right after a first one, under the same props, page
    and processors, stores the same positions and the same total height. *)
Theorem hydrateRowsMeta_idempotent env st :
  keepsBaseSizes env ->
  NoDup (id <$> currentPage_rows env) ->
  (forall row, row ∈ pinnedTopRows env ++ pinnedBottomRows env ->
     id row ∉ id <$> currentPage_rows env) ->
  rowsMeta (hydrateRowsMeta env (hydrateRowsMeta env st)) =
  rowsMeta (hydrateRowsMeta env st).
Proof.
  intros Hkeep Hnd Hpinned. rewrite !rowsMeta_hydrateRowsMeta.
  assert (Hsizes : pageSizes env (hydrateRowsMeta env st) = pageSizes env st);
    [|by rewrite Hsizes].
  unfold pageSizes. apply (processedSizesOf_stable env _ Hkeep Hnd).
  intros row Hin. simpl. rewrite rowsHeightLookup_hydrateRowsMeta.
  unfold processedRows. rewrite stateAfterRows_app.
  rewrite stateAfterRows_lookup_other.
  - by apply stateAfterRows_lookup_row.
  - intros Hrow. apply list_elem_of_fmap in Hrow as (pinned & Heq & Hpin).
    apply (Hpinned pinned Hpin). rewrite <- Heq. by apply list_elem_of_fmap_2.
Qed.

End RowsMetaFacts.

(** ** The export of the columns state *)

Section ColumnsExportFacts.

Variable COLUMNS_DIMENSION_PROPERTIES : list string.
Context {OtherSlices : Type}.
Local Abbreviation GridInitialState := (GridInitialState OtherSlices).
Local Abbreviation step := (columnStep COLUMNS_DIMENSION_PROPERTIES).
Local Abbreviation dimensionsOf :=
  (fun colDef : GridColDef =>
     foldl (dimensionStep colDef) ∅ COLUMNS_DIMENSION_PROPERTIES).

Lemma hasKeys_false {A : Type} (m : gmap string A) : hasKeys m = false <-> m = ∅.
Proof.
  unfold hasKeys. rewrite negb_false_iff, Nat.eqb_eq. apply map_size_empty_iff.
Qed.

Lemma dimensionStep_lookup (colDef : GridColDef) (d : GridColumnDimensions)
    (propertyName p : string) :
  dimensionStep colDef d propertyName !! p =
  if decide (p = propertyName) then withoutInfinity <$> numericProps colDef !! p
  else d !! p.
Proof.
  unfold dimensionStep. destruct (decide (p = propertyName)) as [->|Hne].
  - destruct (numericProps colDef !! propertyName) as [[z|]|]; simpl.
    + apply lookup_insert_eq.
    + apply lookup_insert_eq.
    + apply lookup_delete_eq.
  - destruct (numericProps colDef !! propertyName) as [[z|]|]; simpl.
    + apply lookup_insert_ne; congruence.
    + apply lookup_insert_ne; congruence.
    + apply lookup_delete_ne; congruence.
Qed.

Lemma foldl_dimensionStep_lookup (colDef : GridColDef) (names : list string) (p : string) :
  forall d : GridColumnDimensions,
    foldl (dimensionStep colDef) d names !! p =
    if decide (p ∈ names) then withoutInfinity <$> numericProps colDef !! p else d !! p.
Proof.
  induction names as [|q names IH]; intros d; cbn [foldl].
  - rewrite decide_False by apply not_elem_of_nil. reflexivity.
  - rewrite IH, dimensionStep_lookup.
    destruct (decide (p ∈ names)) as [Hin|Hnin].
    + rewrite decide_True by (by apply list_elem_of_further). reflexivity.
    + destruct (decide (p = q)) as [->|Hne].
      * rewrite decide_True by apply list_elem_of_here. reflexivity.
      * rewrite decide_False; [reflexivity|].
        intros Hin. apply elem_of_cons in Hin as [?|?]; contradiction.
Qed.

Lemma withoutInfinity_finite (o : option Num) : withoutInfinity <$> o <> Some Infinity.
Proof. destruct o as [[z|]|]; discriminate. Qed.

Lemma foldl_columnStep_lookup (defs : list GridColDef) (f : string) :
  forall (d0 : gmap string GridColumnDimensions) (d : GridColumnDimensions),
    foldl step d0 defs !! f = Some d ->
    d0 !! f = Some d \/
    exists colDef, colDef ∈ defs /\ field colDef = f /\ hasBeenResized colDef = true /\
                   d = dimensionsOf colDef.
Proof.
  induction defs as [|c defs IH]; intros d0 d Hd; simpl in Hd; [by left|].
  apply IH in Hd as [Hd|(colDef & Hin & Hf & Hr & Hd)].
  - unfold columnStep in Hd. destruct (hasBeenResized c) eqn:Hc; [|by left].
    destruct (decide (field c = f)) as [Heq|Hne].
    + rewrite Heq, lookup_insert_eq in Hd. inversion Hd; subst.
      right. exists c. split; [apply list_elem_of_here|]. auto.
    + rewrite lookup_insert_ne in Hd by exact Hne. by left.
  - right. exists colDef. split; [by apply list_elem_of_further|]. auto.
Qed.

Lemma foldl_columnStep_is_Some (defs : list GridColDef) (f : string) :
  forall d0 : gmap string GridColumnDimensions,
    is_Some (d0 !! f) \/
    (exists colDef, colDef ∈ defs /\ field colDef = f /\ hasBeenResized colDef = true) ->
    is_Some (foldl step d0 defs !! f).
Proof.
  induction defs as [|c defs IH]; intros d0 H; simpl.
  - destruct H as [H|(colDef & Hin & _)]; [exact H|by apply elem_of_nil in Hin].
  - apply IH. unfold columnStep.
    destruct H as [H|(colDef & Hin & Hf & Hr)].
    + left. destruct (hasBeenResized c); [|exact H].
      destruct (decide (field c = f)) as [Heq|Hne].
      * rewrite Heq, lookup_insert_eq. eauto.
      * by rewrite lookup_insert_ne.
    + apply elem_of_cons in Hin as [->|Hin].
      * left. rewrite Hr, Hf, lookup_insert_eq. eauto.
      * right. eauto.
Qed.

Lemma foldl_columnStep_none (defs : list GridColDef) :
  (forall colDef, colDef ∈ defs -> hasBeenResized colDef = false) ->
  forall d0 : gmap string GridColumnDimensions, foldl step d0 defs = d0.
Proof.
  induction defs as [|c defs IH]; intros Hnone d0; simpl; [reflexivity|].
  unfold columnStep at 2. rewrite (Hnone c) by apply list_elem_of_here.
  apply IH. intros colDef Hin. apply Hnone. by apply list_elem_of_further.
Qed.

(** C6 (amended): the export always writes the ordered fields and leaves
    the slices of the other features as they are; it writes the visibility
    model unless [exportOnlyDirtyModels] is set, the model is not controlled,
    the initial state gives no model or an empty one and the current model is
    empty; it writes a [dimensions] record exactly when a column is flagged
    resized, with an entry for every resized column and for no other field,
    and in an entry every dimension property holds the value of the column
    with [-1] in place of [Infinity].  In particular, with
    [exportOnlyDirtyModels], no visibility model anywhere and no resized
    column, the slice holds the ordered fields only. *)
Theorem stateExportPreProcessing_columns (props : ColumnsProps) (cols : GridColumnsState)
    (prevState : GridInitialState) (context : ExportContext) :
  let result :=
    stateExportPreProcessing COLUMNS_DIMENSION_PROPERTIES props cols prevState context in
  let defs := gridColumnDefinitionsSelector cols in
  let initialModel :=
    default ∅ (propInitialColumns props ≫= initialColumnVisibilityModel) in
  exists exported,
    columns result = Some exported /\
    otherSlices result = otherSlices prevState /\
    initialOrderedFields exported = Some (orderedFields cols) /\
    (initialColumnVisibilityModel exported = None \/
     initialColumnVisibilityModel exported = Some (columnVisibilityModel cols)) /\
    (initialColumnVisibilityModel exported = None <->
       exportOnlyDirtyModels context = true /\
       propColumnVisibilityModel props = None /\
       initialModel = ∅ /\
       columnVisibilityModel cols = ∅) /\
    (initialDimensions exported = None <->
       forall colDef, colDef ∈ defs -> hasBeenResized colDef = false) /\
    (forall colDef, colDef ∈ defs -> hasBeenResized colDef = true ->
       exists dimensions d,
         initialDimensions exported = Some dimensions /\
         dimensions !! field colDef = Some d) /\
    (forall dimensions (f : string) (d : GridColumnDimensions),
       initialDimensions exported = Some dimensions ->
       dimensions !! f = Some d ->
       exists colDef,
         colDef ∈ defs /\ field colDef = f /\ hasBeenResized colDef = true /\
         (forall p, p ∈ COLUMNS_DIMENSION_PROPERTIES ->
            d !! p = withoutInfinity <$> numericProps colDef !! p) /\
         (forall p, p ∉ COLUMNS_DIMENSION_PROPERTIES -> d !! p = None) /\
         (forall p, d !! p <> Some Infinity)) /\
    (exportOnlyDirtyModels context = true ->
     propColumnVisibilityModel props = None ->
     initialModel = ∅ ->
     columnVisibilityModel cols = ∅ ->
     (forall colDef, colDef ∈ defs -> hasBeenResized colDef = false) ->
     exported = orderedFieldsOnly (orderedFields cols)).
Proof.
  intros result defs initialModel. subst result. unfold stateExportPreProcessing.
  fold defs. set (dimensions := foldl step ∅ defs).
  eexists. split; [reflexivity|]. cbn [otherSlices initialOrderedFields
    initialColumnVisibilityModel initialDimensions].
  split; [reflexivity|]. split; [reflexivity|].
  assert (Hshould : shouldExportColumnVisibilityModel props cols context = false <->
            exportOnlyDirtyModels context = true /\
            propColumnVisibilityModel props = None /\
            initialModel = ∅ /\ columnVisibilityModel cols = ∅).
  { unfold shouldExportColumnVisibilityModel, gridColumnVisibilityModelSelector.
    fold initialModel. rewrite !orb_false_iff, negb_false_iff, !hasKeys_false.
    rewrite bool_decide_eq_false, <- eq_None_not_Some. tauto. }
  assert (Hdims : hasKeys dimensions = false <->
            forall colDef, colDef ∈ defs -> hasBeenResized colDef = false).
  { rewrite hasKeys_false. split.
    - intros Hempty colDef Hin. destruct (hasBeenResized colDef) eqn:Hr; [|reflexivity].
      destruct (foldl_columnStep_is_Some defs (field colDef) ∅) as [d Hd].
      { right. eauto. }
      fold dimensions in Hd. rewrite Hempty, lookup_empty in Hd. discriminate.
    - intros Hnone. by apply foldl_columnStep_none. }
  split.
  { destruct (shouldExportColumnVisibilityModel props cols context); [by right|by left]. }
  split.
  { rewrite <- Hshould.
    destruct (shouldExportColumnVisibilityModel props cols context);
      split; intros H; try reflexivity; discriminate. }
  split.
  { rewrite <- Hdims. destruct (hasKeys dimensions);
      split; intros H; try reflexivity; discriminate. }
  split.
  { intros colDef Hin Hr. destruct (hasKeys dimensions) eqn:Hk.
    - destruct (foldl_columnStep_is_Some defs (field colDef) ∅) as [d Hd].
      { right. eauto. }
      exists dimensions, d. split; [reflexivity|exact Hd].
    - rewrite (proj1 Hdims eq_refl colDef Hin) in Hr. discriminate. }
  split.
  { intros dims f d Hsome Hd.
    destruct (hasKeys dimensions); [|discriminate]. inversion Hsome; subst dims.
    apply foldl_columnStep_lookup in Hd as [Hd|(colDef & Hin & Hf & Hr & ->)].
    { rewrite lookup_empty in Hd. discriminate. }
    exists colDef. repeat split; try assumption.
    - intros p Hp. rewrite foldl_dimensionStep_lookup, decide_True by exact Hp.
      reflexivity.
    - intros p Hp. rewrite foldl_dimensionStep_lookup, decide_False by exact Hp.
      apply lookup_empty.
    - intros p. rewrite foldl_dimensionStep_lookup.
      destruct (decide (p ∈ COLUMNS_DIMENSION_PROPERTIES)).
      + apply withoutInfinity_finite.
      + rewrite lookup_empty. discriminate. }
  intros H1 H2 H3 H4 H5.
  assert (Hs : shouldExportColumnVisibilityModel props cols context = false)
    by (apply Hshould; auto).
  assert (Hk : hasKeys dimensions = false) by (apply Hdims; exact H5).
  rewrite Hs, Hk. reflexivity.
Qed.

End ColumnsExportFacts.

(** ** The detail-panel toggle column *)

Section DetailPanelFacts.

Variable GRID_DETAIL_PANEL_TOGGLE_FIELD : string.
Variable toggleColDef : GridColDef.
Local Abbreviation addToggle :=
  (addToggleColumn GRID_DETAIL_PANEL_TOGGLE_FIELD toggleColDef).

Lemma addToggleColumn_idem (hasContent : bool) (columnsState : GridColumnsState) :
  addToggle hasContent (addToggle hasContent columnsState) =
  addToggle hasContent columnsState.
Proof.
  unfold addToggleColumn. destruct hasContent; simpl.
  - destruct (lookup columnsState !! GRID_DETAIL_PANEL_TOGGLE_FIELD) eqn:Hl.
    + rewrite Hl. reflexivity.
    + simpl. rewrite lookup_insert_eq. reflexivity.
  - destruct (lookup columnsState !! GRID_DETAIL_PANEL_TOGGLE_FIELD) eqn:Hl.
    + simpl. rewrite lookup_delete_eq. reflexivity.
    + rewrite Hl. reflexivity.
Qed.

Lemma addToggleColumn_iter (hasContent : bool) (columnsState : GridColumnsState) (n : nat) :
  Nat.iter (S n) (addToggle hasContent) columnsState = addToggle hasContent columnsState.
Proof.
  induction n as [|n IH]; [reflexivity|].
  change (Nat.iter (S (S n)) (addToggle hasContent) columnsState)
    with (addToggle hasContent (Nat.iter (S n) (addToggle hasContent) columnsState)).
  rewrite IH. apply addToggleColumn_idem.
Qed.

(** C7: the processor is idempotent, so that any number of consecutive runs
    gives the state of one run.  With the capability, a state whose lookup
    has no toggle column gets the toggle field in front of the ordered
    fields and the toggle column in the lookup, and a state whose lookup has
    one is left as it is; in a state where an ordered toggle field has its
    lookup entry and no field is ordered twice, no field is ordered twice
    after the run.  Without the capability, a state whose lookup has the
    toggle column loses it from the lookup and from the ordered fields, every
    other field and column staying in place, and a state whose lookup has
    none is left as it is. *)
Theorem addToggleColumn_spec (hasContent : bool) (columnsState : GridColumnsState) :
  let result := addToggle hasContent columnsState in
  (forall n : nat, Nat.iter (S n) (addToggle hasContent) columnsState = result) /\
  columnVisibilityModel result = columnVisibilityModel columnsState /\
  (hasContent = true ->
     is_Some (lookup result !! GRID_DETAIL_PANEL_TOGGLE_FIELD) /\
     (lookup columnsState !! GRID_DETAIL_PANEL_TOGGLE_FIELD = None ->
        orderedFields result =
          (GRID_DETAIL_PANEL_TOGGLE_FIELD :: orderedFields columnsState) /\
        lookup result =
          <[GRID_DETAIL_PANEL_TOGGLE_FIELD := toggleColDef]> (lookup columnsState)) /\
     (is_Some (lookup columnsState !! GRID_DETAIL_PANEL_TOGGLE_FIELD) ->
        result = columnsState) /\
     (fieldHasDefinition GRID_DETAIL_PANEL_TOGGLE_FIELD columnsState ->
      NoDup (orderedFields columnsState) ->
        NoDup (orderedFields result))) /\
  (hasContent = false ->
     lookup result !! GRID_DETAIL_PANEL_TOGGLE_FIELD = None /\
     (is_Some (lookup columnsState !! GRID_DETAIL_PANEL_TOGGLE_FIELD) ->
        (GRID_DETAIL_PANEL_TOGGLE_FIELD ∉ orderedFields result) /\
        orderedFields result =
          filter (fun f => f <> GRID_DETAIL_PANEL_TOGGLE_FIELD)
                 (orderedFields columnsState) /\
        lookup result = delete GRID_DETAIL_PANEL_TOGGLE_FIELD (lookup columnsState)) /\
     (lookup columnsState !! GRID_DETAIL_PANEL_TOGGLE_FIELD = None ->
        result = columnsState) /\
     (fieldHasDefinition GRID_DETAIL_PANEL_TOGGLE_FIELD columnsState ->
        GRID_DETAIL_PANEL_TOGGLE_FIELD ∉ orderedFields result)).
Proof.
  intros result. subst result.
  split; [intros n; apply addToggleColumn_iter|].
  unfold addToggleColumn, fieldHasDefinition.
  destruct (lookup columnsState !! GRID_DETAIL_PANEL_TOGGLE_FIELD) as [c|] eqn:Hl.
  - destruct hasContent; simpl.
    + split; [reflexivity|]. split; [|discriminate]. intros _.
      rewrite Hl. split; [eauto|]. split; [discriminate|]. split; [reflexivity|]. auto.
    + split; [reflexivity|]. split; [discriminate|]. intros _.
      split; [apply lookup_delete_eq|].
      assert (Hnot : GRID_DETAIL_PANEL_TOGGLE_FIELD
                       ∉ filter (fun f => f <> GRID_DETAIL_PANEL_TOGGLE_FIELD)
                                (orderedFields columnsState)).
      { intros Hin. apply list_elem_of_filter in Hin as [Hne _]. by apply Hne. }
      split; [auto|]. split; [discriminate|]. auto.
  - destruct hasContent; simpl.
    + split; [reflexivity|]. split; [|discriminate]. intros _.
      split; [rewrite lookup_insert_eq; eauto|].
      split; [auto|]. split; [intros [? ?]; discriminate|].
      intros Hdef Hnd. apply NoDup_cons. split; [|exact Hnd].
      intros Hin. destruct (Hdef Hin) as [? ?]. discriminate.
    + split; [reflexivity|]. split; [discriminate|]. intros _.
      split; [exact Hl|]. split; [intros [? ?]; discriminate|]. split; [reflexivity|].
      intros Hdef Hin. destruct (Hdef Hin) as [? ?]. discriminate.
Qed.

End DetailPanelFacts.

(** ** The properties on the concrete grids *)

Import Examples.

Lemma keepsBaseSizes_keepsBaseCenter {RowModel DensityFactor : Type}
    (env : Env RowModel DensityFactor) :
  keepsBaseSizes env -> keepsBaseCenter env.
Proof.
  intros Hkeep s r.
  rewrite <- (existingBaseSizes_lookup (applyRowHeightProcessors env s r) "baseCenter")
    by reflexivity.
  rewrite Hkeep. by apply existingBaseSizes_lookup.
Qed.

Lemma gridEnv_keepsBaseSizes : keepsBaseSizes gridEnv.
Proof.
  intros s r. simpl. destruct (String.eqb (id r) "b"); [|reflexivity].
  by apply existingBaseSizes_insert_other.
Qed.

Lemma fixedHeightEnv_keepsBaseSizes : keepsBaseSizes fixedHeightEnv.
Proof. exact gridEnv_keepsBaseSizes. Qed.

Lemma gridState_entryA : rowsHeightLookup gridState !! "a" = Some entryA.
Proof. vm_compute. reflexivity. Qed.

Example isBaseKey_examples :
  isBaseKey "baseCenter" = true /\ isBaseKey "baseTop" = true /\
  isBaseKey "base" = false /\ isBaseKey "baseline" = false /\
  isBaseKey "spacingTop" = false /\ isBaseKey "detail" = false.
Proof. repeat split. Qed.

Example baseSlot_examples :
  baseSlot "center" = "baseCenter" /\ baseSlot "left" = "baseLeft".
Proof. split; reflexivity. Qed.

(** The first run on the page of three rows: 52 for the estimated row [a],
    30 + 4 + 7 for row [b] and 30 + 4 for row [c]. *)
Example gridState_rowsMeta :
  rowsMeta gridState = {| currentPageTotalHeight := 127; positions := [0; 52; 93] |} /\
  hasRowWithAutoHeight gridState = true /\
  lastMeasuredRowIndex gridState = Fin (-1).
Proof. repeat split; vm_compute; reflexivity. Qed.

(** A measurement of row [a], then the recomputation the debounce runs *)
Example gridState_measured :
  let measured := storeMeasuredRowHeight "a" 80 "center" gridState in
  debouncedCalls measured = 1%nat /\
  rowsMeta (hydrateRowsMeta gridEnv measured)
    = {| currentPageTotalHeight := 155; positions := [0; 80; 121] |}.
Proof. split; vm_compute; reflexivity. Qed.

Lemma currentPageTotalHeight_last_row_witness :
  exists (p : Z) (s : Sizes),
    last (positions (rowsMeta gridState)) = Some p /\
    last (pageSizes gridEnv initialState) = Some s /\
    nonNegativeSizes s /\
    p = 93 /\
    totalRowHeight s = 34 /\
    currentPageTotalHeight (rowsMeta gridState) = p + totalRowHeight s.
Proof.
  pose proof (currentPageTotalHeight_last_row gridEnv initialState) as H. cbv zeta in H.
  assert (Hrows : last (currentPage_rows gridEnv) = Some (row "c")) by reflexivity.
  rewrite Hrows in H. destruct H as (p & s & Hp & Hs & _ & Htotal).
  assert (Hp' : last (positions (rowsMeta (hydrateRowsMeta gridEnv initialState))) = Some 93)
    by (vm_compute; reflexivity).
  assert (Hs' : last (pageSizes gridEnv initialState)
                = Some {[ "baseCenter" := 30; "spacingTop" := 4; "spacingBottom" := 0 ]})
    by (vm_compute; reflexivity).
  assert (Hnn : nonNegativeSizes s).
  { rewrite Hs' in Hs. inversion Hs; subst s. unfold nonNegativeSizes.
    apply (bool_decide_unpack _). vm_compute. exact I. }
  exists p, s. split; [exact Hp|]. split; [exact Hs|]. split; [exact Hnn|].
  split; [rewrite Hp' in Hp; by inversion Hp|].
  split; [rewrite Hs' in Hs; inversion Hs; subst s; vm_compute; reflexivity|].
  exact (Htotal Hnn).
Defined.

Lemma positions_increments_witness :
  Forall nonNegativeSizes (pageSizes gridEnv initialState) /\
  positions (rowsMeta gridState) = [0; 52; 93] /\
  (forall (i : nat) (p q : Z) (s : Sizes),
     positions (rowsMeta gridState) !! i = Some p ->
     positions (rowsMeta gridState) !! S i = Some q ->
     pageSizes gridEnv initialState !! i = Some s ->
     q - p = totalRowHeight s /\ 0 <= q - p).
Proof.
  assert (H : Forall nonNegativeSizes (pageSizes gridEnv initialState)).
  { unfold nonNegativeSizes. apply (bool_decide_unpack _). vm_compute. exact I. }
  split; [exact H|]. split; [vm_compute; reflexivity|].
  exact (proj1 (proj2 (proj2 (positions_increments gridEnv initialState)) H)).
Defined.

Lemma setRowHeight_keeps_height_witness :
  is_Some (rowsHeightLookup gridState !! "a") /\
  keepsBaseCenter gridEnv /\
  exists st',
    setRowHeight gridEnv "a" 80 gridState = Normal st' /\
    cachedIsResized "a" st' = true /\
    cachedBaseCenter "a" st' = Some 80 /\
    let later :=
      [StoreMeasurement "b" 44 "center"; RunHydrateRowsMeta fixedHeightEnv;
       StoreMeasurement "a" 60 "left"; SetLastMeasured (Fin 2);
       RunHydrateRowsMeta gridEnv] in
    cachedIsResized "a" (foldl (fun s op => perform op s) st' later) = true /\
    cachedBaseCenter "a" (foldl (fun s op => perform op s) st' later) = Some 80.
Proof.
  assert (H : is_Some (rowsHeightLookup gridState !! "a")).
  { rewrite gridState_entryA. eexists. reflexivity. }
  assert (H1 : keepsBaseCenter gridEnv)
    by exact (keepsBaseSizes_keepsBaseCenter _ gridEnv_keepsBaseSizes).
  assert (H2 : keepsBaseCenter fixedHeightEnv)
    by exact (keepsBaseSizes_keepsBaseCenter _ fixedHeightEnv_keepsBaseSizes).
  set (later := [StoreMeasurement "b" 44 "center"; RunHydrateRowsMeta fixedHeightEnv;
                 StoreMeasurement "a" 60 "left"; SetLastMeasured (Fin 2);
                 RunHydrateRowsMeta gridEnv]).
  assert (H3 : Forall (sparesHeightOf "a") later).
  { subst later.
    apply Forall_cons_2; [left; discriminate|].
    apply Forall_cons_2; [exact H2|].
    apply Forall_cons_2; [right; vm_compute; discriminate|].
    apply Forall_cons_2; [exact I|].
    apply Forall_cons_2; [exact H1|]. apply Forall_nil_2. }
  split; [exact H|]. split; [exact H1|].
  destruct (setRowHeight_keeps_height gridEnv "a" 80 gridState later H H1 H3)
    as (st' & Hset & Hlater).
  exists st'. split; [exact Hset|].
  destruct (Hlater [] (ex_intro _ later eq_refl)) as [Hr0 Hb0].
  destruct (Hlater later (ex_intro _ [] eq_refl)) as [Hr1 Hb1].
  split; [exact Hr0|]. split; [exact Hb0|]. split; [exact Hr1|exact Hb1].
Defined.

Lemma storeMeasuredRowHeight_spec_witness :
  rowsHeightLookup gridState !! "a" = Some entryA /\
  autoHeight entryA = true /\
  exists entry',
    rowsHeightLookup (storeMeasuredRowHeight "a" 80 "center" gridState) !! "a"
      = Some entry' /\
    needsFirstMeasurement entry' = false /\
    sizes entry' !! "baseCenter" = Some 80 /\
    debouncedCalls (storeMeasuredRowHeight "a" 80 "center" gridState)
      = S (debouncedCalls gridState).
Proof.
  split; [exact gridState_entryA|]. split; [reflexivity|].
  destruct (proj2 (storeMeasuredRowHeight_spec "a" 80 "center" gridState)
              entryA gridState_entryA eq_refl)
    as (entry' & Hlook & Hfirst & Hslot & _ & _ & _ & _ & _ & _ & Hdiffers & _).
  exists entry'. split; [exact Hlook|]. split; [exact Hfirst|]. split; [exact Hslot|].
  apply Hdiffers. vm_compute. discriminate.
Defined.

Lemma lastMeasuredRowIndex_advances_witness :
  hasRowWithAutoHeight gridState = true /\
  Num_gt (Fin 3) (lastMeasuredRowIndex gridState) = true /\
  lastMeasuredRowIndex (setLastMeasuredRowIndex (Fin 3) gridState) = Fin 3 /\
  hasRowWithAutoHeight (hydrateRowsMeta fixedHeightEnv gridState) = false /\
  lastMeasuredRowIndex (hydrateRowsMeta fixedHeightEnv gridState) = Infinity.
Proof.
  assert (H1 : hasRowWithAutoHeight gridState = true) by (vm_compute; reflexivity).
  assert (H2 : Num_gt (Fin 3) (lastMeasuredRowIndex gridState) = true)
    by (vm_compute; reflexivity).
  assert (H3 : hasRowWithAutoHeight (hydrateRowsMeta fixedHeightEnv gridState) = false)
    by (vm_compute; reflexivity).
  split; [exact H1|]. split; [exact H2|]. split.
  - exact (proj1 (proj2 (proj2 (proj1 (@lastMeasuredRowIndex_advances unit unit) (Fin 3) gridState)))
             H1 H2).
  - split; [exact H3|].
    exact (proj1 (proj2 (proj2 (@lastMeasuredRowIndex_advances unit unit) fixedHeightEnv gridState))
             H3).
Defined.

Lemma setRowHeight_missing_entry_witness :
  rowsHeightLookup gridState !! "z" = None /\
  setRowHeight gridEnv "z" 80 gridState = Throw TypeError.
Proof.
  assert (H : rowsHeightLookup gridState !! "z" = None) by (vm_compute; reflexivity).
  split; [exact H|]. exact (setRowHeight_missing_entry gridEnv "z" 80 gridState H).
Defined.

Lemma accessors_missing_entry_witness :
  rowsHeightLookup gridState !! "z" = None /\
  inheritedProperty "z" = false /\
  getRowHeight gridEnv "z" gridState = Normal (Some 52) /\
  rowHasAutoHeight "z" gridState = false.
Proof.
  assert (H : rowsHeightLookup gridState !! "z" = None) by (vm_compute; reflexivity).
  split; [exact H|]. split; [reflexivity|].
  destruct (accessors_missing_entry gridEnv "z" gridState H) as [Hauto Hheight].
  split; [exact (Hheight eq_refl)|exact Hauto].
Defined.

Lemma hydrateRowsMeta_idempotent_witness :
  keepsBaseSizes gridEnv /\
  NoDup (id <$> currentPage_rows gridEnv) /\
  rowsMeta (hydrateRowsMeta gridEnv gridState) = rowsMeta gridState.
Proof.
  assert (Hnd : NoDup (id <$> currentPage_rows gridEnv)).
  { apply (bool_decide_unpack _). vm_compute. exact I. }
  split; [exact gridEnv_keepsBaseSizes|]. split; [exact Hnd|].
  apply (hydrateRowsMeta_idempotent gridEnv initialState gridEnv_keepsBaseSizes Hnd).
  intros r Hin. apply list_elem_of_singleton in Hin. subst r.
  apply (bool_decide_unpack _). vm_compute. exact I.
Defined.

Lemma stateExportPreProcessing_columns_witness :
  columns
    (stateExportPreProcessing dimensionProperties noColumnsProps cleanColumns emptyExport
       {| exportOnlyDirtyModels := true |})
  = Some (orderedFieldsOnly ["name"; "age"]) /\
  initialDimensions
    <$> columns
          (stateExportPreProcessing dimensionProperties noColumnsProps resizedColumns
             emptyExport {| exportOnlyDirtyModels := true |})
  = Some (Some {[ "age" :=
                    {[ "width" := Fin 120; "minWidth" := Fin 50;
                       "maxWidth" := Fin (-1) ]} ]}).
Proof.
  split; [|vm_compute; reflexivity].
  destruct (stateExportPreProcessing_columns dimensionProperties noColumnsProps
              cleanColumns emptyExport {| exportOnlyDirtyModels := true |})
    as (exported & Hcolumns & _ & _ & _ & _ & _ & _ & _ & Hclean).
  rewrite Hcolumns. f_equal. apply Hclean; try reflexivity.
  apply Forall_forall. vm_compute. repeat constructor.
Defined.

Lemma addToggleColumn_spec_witness :
  fieldHasDefinition toggleField cleanColumns /\
  NoDup (orderedFields cleanColumns) /\
  orderedFields (addToggleColumn toggleField toggleColumn true cleanColumns)
    = ["__detail_panel_toggle__"; "name"; "age"] /\
  NoDup (orderedFields (addToggleColumn toggleField toggleColumn true cleanColumns)) /\
  addToggleColumn toggleField toggleColumn true
    (addToggleColumn toggleField toggleColumn true cleanColumns)
    = addToggleColumn toggleField toggleColumn true cleanColumns /\
  addToggleColumn toggleField toggleColumn false
    (addToggleColumn toggleField toggleColumn true cleanColumns)
    = cleanColumns.
Proof.
  assert (Hdef : fieldHasDefinition toggleField cleanColumns).
  { intros Hin. exfalso. revert Hin.
    apply (bool_decide_unpack (toggleField ∉ orderedFields cleanColumns)).
    vm_compute. exact I. }
  assert (Hnd : NoDup (orderedFields cleanColumns)).
  { apply (bool_decide_unpack _). vm_compute. exact I. }
  destruct (addToggleColumn_spec toggleField toggleColumn true cleanColumns)
    as (Hiter & _ & Hwith & _).
  destruct (Hwith eq_refl) as (_ & Hnew & _ & Hnodup).
  split; [exact Hdef|]. split; [exact Hnd|].
  split; [exact (proj1 (Hnew eq_refl))|].
  split; [exact (Hnodup Hdef Hnd)|].
  split; [exact (Hiter 1%nat)|].
  vm_compute. reflexivity.
Defined.

(** ** Where the specification says more than the code does *)

(** C1 as stated fails: the loop of the hook starts the maximum of the
    [base*] components at 0.  For a row whose only component is a
    [baseCenter] of -10 the total height of the row is -10, and the run
    stores the total height 0 for the page, which is not the last position,
    0, plus -10. *)
Lemma currentPageTotalHeight_last_row_counterexample :
  rowsMeta (hydrateRowsMeta Scenarios.negativeEnv initialState)
    = {| currentPageTotalHeight := 0; positions := [0] |} /\
  last (pageSizes Scenarios.negativeEnv initialState) = Some {[ "baseCenter" := -10 ]} /\
  totalRowHeight {[ "baseCenter" := -10 ]} = -10 /\
  currentPageTotalHeight (rowsMeta (hydrateRowsMeta Scenarios.negativeEnv initialState))
    <> 0 + totalRowHeight {[ "baseCenter" := -10 ]}.
Proof.
  split; [vm_compute; reflexivity|]. split; [vm_compute; reflexivity|].
  split; [vm_compute; reflexivity|]. vm_compute. discriminate.
Qed.

(** C3 as stated fails, in two ways.  With a [rowHeight] processor that
    enforces a minimum height of 100 on [baseCenter], the row [a] of the
    cache is set to 80 and the cache holds 100 for it after the run of
    [setRowHeight] and after the next run.  And a row with an automatic
    height that was resized still takes measurements: row [a] is set to 80,
    a measurement of 60 is stored for its center, and the next run leaves 60
    in the cache, the row still being flagged resized. *)
Lemma setRowHeight_keeps_height_counterexample :
  (is_Some (rowsHeightLookup minimumHeightState !! "a") /\
   exists st',
     setRowHeight minimumHeightEnv "a" 80 minimumHeightState = Normal st' /\
     cachedIsResized "a" st' = true /\
     cachedBaseCenter "a" st' = Some 100 /\
     cachedBaseCenter "a" (hydrateRowsMeta minimumHeightEnv st') = Some 100 /\
     cachedBaseCenter "a" (hydrateRowsMeta minimumHeightEnv st') <> Some 80) /\
  (is_Some (rowsHeightLookup gridState !! "a") /\
   exists st',
     setRowHeight gridEnv "a" 80 gridState = Normal st' /\
     cachedBaseCenter "a" st' = Some 80 /\
     let measured := storeMeasuredRowHeight "a" 60 "center" st' in
     cachedIsResized "a" (hydrateRowsMeta gridEnv measured) = true /\
     cachedBaseCenter "a" (hydrateRowsMeta gridEnv measured) = Some 60 /\
     cachedBaseCenter "a" (hydrateRowsMeta gridEnv measured) <> Some 80).
Proof.
  split.
  - split; [vm_compute; eexists; reflexivity|].
    eexists. split; [vm_compute; reflexivity|].
    split; [vm_compute; reflexivity|].
    split; [vm_compute; reflexivity|].
    split; [vm_compute; reflexivity|].
    vm_compute. discriminate.
  - split; [vm_compute; eexists; reflexivity|].
    eexists. split; [vm_compute; reflexivity|].
    split; [vm_compute; reflexivity|]. cbv zeta.
    split; [vm_compute; reflexivity|].
    split; [vm_compute; reflexivity|].
    vm_compute. discriminate.
Qed.

(** C10 as stated fails: the cache is a plain object, and for the id
    [toString], which the cache does not hold, [getRowHeight] reads the
    inherited function in place of an entry and throws; [rowHasAutoHeight]
    returns [false] for it. *)
Lemma accessors_missing_entry_counterexample :
  rowsHeightLookup gridState !! "toString" = None /\
  getRowHeight gridEnv "toString" gridState = Throw TypeError /\
  getRowHeight gridEnv "toString" gridState <> Normal (Some (rowHeightFromDensity gridEnv)) /\
  rowHasAutoHeight "toString" gridState = false.
Proof.
  split; [vm_compute; reflexivity|].
  split; [vm_compute; reflexivity|].
  split; [vm_compute; discriminate|vm_compute; reflexivity].
Qed.

(** C6 as stated fails: the export does not always write the visibility
    model.  With [exportOnlyDirtyModels], a model that is neither controlled
    nor initialized and that is empty, the exported slice has no
    [columnVisibilityModel]. *)
Lemma stateExportPreProcessing_counterexample :
  exists exported,
    columns
      (stateExportPreProcessing dimensionProperties noColumnsProps cleanColumns
         emptyExport {| exportOnlyDirtyModels := true |})
    = Some exported /\
    initialColumnVisibilityModel exported = None.
Proof. eexists. split; vm_compute; reflexivity. Qed.

(** C8 as stated fails.  With a [rowHeight] processor that adds a padding of
    10 to [baseCenter], a measured row grows by 10 at every run: two runs in
    a row with nothing changed in between store the totals 90 and 100.  With
    no processor at all, a page that lists an id twice, under two models,
    gives the positions [0; 52] and then [0; 50]. *)
Lemma hydrateRowsMeta_idempotent_counterexample :
  rowsMeta (hydrateRowsMeta paddingEnv (hydrateRowsMeta paddingEnv paddingState))
    <> rowsMeta (hydrateRowsMeta paddingEnv paddingState) /\
  (rowsMeta (hydrateRowsMeta paddingEnv paddingState)
     = {| currentPageTotalHeight := 90; positions := [0] |} /\
   rowsMeta (hydrateRowsMeta paddingEnv (hydrateRowsMeta paddingEnv paddingState))
     = {| currentPageTotalHeight := 100; positions := [0] |}) /\
  (rowsMeta (hydrateRowsMeta twiceEnv initialState)
     = {| currentPageTotalHeight := 102; positions := [0; 52] |} /\
   rowsMeta (hydrateRowsMeta twiceEnv (hydrateRowsMeta twiceEnv initialState))
     = {| currentPageTotalHeight := 100; positions := [0; 50] |}).
Proof.
  split; [vm_compute; discriminate|].
  repeat split; vm_compute; reflexivity.
Qed.


(** * Further properties of the hooks *)

(** ** What a run does to the cache *)

Section RowsMetaFurther.

Context {RowModel DensityFactor : Type}.
Local Abbreviation Env := (Env RowModel DensityFactor).
Local Abbreviation GridRowEntry := (GridRowEntry RowModel).
Implicit Types (env : Env) (st : State) (row : GridRowEntry) (rows : list GridRowEntry).

Lemma stateAfterRows_is_Some env rows : forall st (rowId : GridRowId),
  is_Some (rowsHeightLookup (stateAfterRows env st rows) !! rowId) <->
  is_Some (rowsHeightLookup st !! rowId) \/ rowId ∈ id <$> rows.
Proof.
  induction rows as [|row rows IH]; intros st rowId.
  - simpl. split; [by left|]. intros [H|H]; [exact H|by apply elem_of_nil in H].
  - rewrite stateAfterRows_cons, IH, calculateRowProcessedSizes_eq. simpl.
    rewrite lookup_insert_is_Some', ?fmap_cons, elem_of_cons. split.
    + intros [[Heq|H]|H]; [right; left; by rewrite Heq|by left|right; by right].
    + intros [H|[Heq|H]]; [left; by right|left; left; by rewrite Heq|by right].
Qed.

Lemma stateAfterRows_resized env rows : forall st (rowId : GridRowId),
  from_option isResized false (rowsHeightLookup (stateAfterRows env st rows) !! rowId) =
  from_option isResized false (rowsHeightLookup st !! rowId).
Proof.
  induction rows as [|row rows IH]; intros st rowId; [reflexivity|].
  rewrite stateAfterRows_cons, IH. apply calculateRowProcessedSizes_resized.
Qed.

Lemma stateAfterRows_debouncedCalls env rows : forall st,
  debouncedCalls (stateAfterRows env st rows) = debouncedCalls st.
Proof.
  induction rows as [|row rows IH]; intros st; [reflexivity|].
  rewrite stateAfterRows_cons, IH, calculateRowProcessedSizes_eq. reflexivity.
Qed.

Lemma debouncedCalls_hydrateRowsMeta env st :
  debouncedCalls (hydrateRowsMeta env st) = debouncedCalls st.
Proof.
  rewrite hydrateRowsMeta_eq. cbv zeta.
  match goal with |- context [if ?b then _ else _] => destruct b end; simpl;
    by rewrite stateAfterRows_debouncedCalls.
Qed.

(** X1: a run of [hydrateRowsMeta] never drops an entry of the cache: the
    rows with an entry after the run are the rows that had one and the rows
    the run processes (page and pinned), and the entry of a row the run does
    not process is the entry it was. *)
Theorem hydrateRowsMeta_cache env st (rowId : GridRowId) :
  (is_Some (rowsHeightLookup (hydrateRowsMeta env st) !! rowId) <->
   is_Some (rowsHeightLookup st !! rowId) \/ rowId ∈ id <$> processedRows env) /\
  (rowId ∉ id <$> processedRows env ->
   rowsHeightLookup (hydrateRowsMeta env st) !! rowId = rowsHeightLookup st !! rowId).
Proof.
  rewrite rowsHeightLookup_hydrateRowsMeta. split.
  - apply (stateAfterRows_is_Some env (processedRows env)
             (set_hasRowWithAutoHeight false st)).
  - intros Hnot. by rewrite stateAfterRows_lookup_other.
Qed.

(** X2: a run of [hydrateRowsMeta] leaves the [isResized] flag of every row
    as it is (a row without entry counts as not resized) and calls the
    debounced recomputation for no row. *)
Theorem hydrateRowsMeta_keeps_resized env st (rowId : GridRowId) :
  from_option isResized false (rowsHeightLookup (hydrateRowsMeta env st) !! rowId) =
  from_option isResized false (rowsHeightLookup st !! rowId) /\
  debouncedCalls (hydrateRowsMeta env st) = debouncedCalls st.
Proof.
  split; [|apply debouncedCalls_hydrateRowsMeta].
  rewrite rowsHeightLookup_hydrateRowsMeta.
  apply (stateAfterRows_resized env (processedRows env)
           (set_hasRowWithAutoHeight false st)).
Qed.

(** X3: the rows pinned at the top and at the bottom take no part in the
    positions and in the total height of the page: a run stores the same
    [rowsMeta] whatever the pinned rows are. *)
Theorem hydrateRowsMeta_pinned_independent env st
    (pinned : option (GridPinnedRows RowModel)) :
  rowsMeta (hydrateRowsMeta (withPinnedRows pinned env) st) =
  rowsMeta (hydrateRowsMeta env st).
Proof.
  rewrite !rowsMeta_hydrateRowsMeta. unfold pageSizes.
  change (currentPage_rows (withPinnedRows pinned env)) with (currentPage_rows env).
  assert (Hsame : forall rows st0,
            processedSizesOf (withPinnedRows pinned env) st0 rows =
            processedSizesOf env st0 rows).
  { induction rows as [|row rows IH]; intros st0; [reflexivity|].
    rewrite !processedSizesOf_cons. rewrite <- IH. reflexivity. }
  by rewrite Hsame.
Qed.


Lemma hasRowWithAutoHeight_hydrateRowsMeta env st :
  hasRowWithAutoHeight (hydrateRowsMeta env st) =
  existsb (takesAutoBranch env st) (processedRows env).
Proof.
  rewrite hydrateRowsMeta_eq. cbv zeta.
  match goal with |- context [if ?b then _ else _] => destruct b end; simpl;
    rewrite stateAfterRows_flag; simpl; apply existsb_pointwise; intros r; reflexivity.
Qed.

Lemma lastMeasuredRowIndex_hydrateRowsMeta_le env st :
  Num_le (lastMeasuredRowIndex st) (lastMeasuredRowIndex (hydrateRowsMeta env st)).
Proof.
  rewrite hydrateRowsMeta_eq. cbv zeta.
  match goal with |- context [if ?b then _ else _] => destruct b end; simpl.
  - destruct (lastMeasuredRowIndex st); exact I.
  - rewrite stateAfterRows_lastMeasuredRowIndex. apply Num_le_refl.
Qed.

(** ** The height a run gives a row *)

Lemma hydrateRowsMeta_lookup_row env st row :
  NoDup (id <$> processedRows env) ->
  row ∈ processedRows env ->
  rowsHeightLookup (hydrateRowsMeta env st) !! id row =
  Some (processEntry env row (entryOf env st row)).
Proof.
  intros Hnd Hin. rewrite rowsHeightLookup_hydrateRowsMeta.
  by rewrite (stateAfterRows_lookup_row env _ _ _ Hnd Hin).
Qed.

Lemma processEntry_baseCenter_kept env row (entry : HeightEntry) :
  keepsBaseCenter env ->
  sizes (processEntry env row entry) !! "baseCenter" =
  fst (fst (fst (baseRowHeightOf env row false entry))).
Proof.
  intros Hkeep. unfold processEntry.
  destruct (baseRowHeightOf env row false entry) as [[[b n] a] h]. simpl.
  rewrite Hkeep, withSpacing_lookup by reflexivity. apply withBaseCenter_lookup.
Qed.

Lemma autoHeight_processEntry env row (entry : HeightEntry) :
  autoHeight (processEntry env row entry) =
  snd (fst (baseRowHeightOf env row false entry)).
Proof.
  unfold processEntry.
  destruct (baseRowHeightOf env row false entry) as [[[b n] a] h]. reflexivity.
Qed.

Lemma isResized_entryOf env st row :
  isResized (entryOf env st row) =
  from_option isResized false (rowsHeightLookup st !! id row).
Proof. unfold entryOf. destruct (rowsHeightLookup st !! id row); reflexivity. Qed.

Lemma needsFirstMeasurement_entryOf env st row :
  needsFirstMeasurement (entryOf env st row) =
  from_option needsFirstMeasurement true (rowsHeightLookup st !! id row).
Proof. unfold entryOf. destruct (rowsHeightLookup st !! id row); reflexivity. Qed.

(** X4: a row that is not resized and whose height the provider does not
    leave to measurement gets the height of the provider, and the height
    derived from the density when there is no provider or the provider
    answers [null]; with a provider the row is not flagged [autoHeight].
    This holds for every row a run processes when the processed rows have
    distinct ids and the [rowHeight] processors return [baseCenter] as they
    receive it. *)
Theorem hydrateRowsMeta_fixed_height env st row :
  keepsBaseCenter env ->
  NoDup (id <$> processedRows env) ->
  row ∈ processedRows env ->
  from_option isResized false (rowsHeightLookup st !! id row) = false ->
  providedHeight env row <> Some HeightAuto ->
  getRowHeight env (id row) (hydrateRowsMeta env st) =
    Normal (Some match providedHeight env row with
                 | Some (HeightValue (Some v)) => v
                 | _ => rowHeightFromDensity env
                 end) /\
  (is_Some (providedHeight env row) ->
   rowHasAutoHeight (id row) (hydrateRowsMeta env st) = false).
Proof.
  intros Hkeep Hnd Hin Hres Hfixed.
  unfold getRowHeight, rowHasAutoHeight.
  rewrite (hydrateRowsMeta_lookup_row env st row Hnd Hin).
  rewrite (processEntry_baseCenter_kept env row _ Hkeep), autoHeight_processEntry.
  rewrite <- (isResized_entryOf env) in Hres.
  unfold baseRowHeightOf. rewrite Hres.
  unfold providedHeight in *.
  destruct (getRowHeightProp env) as [f|]; simpl in *.
  - destruct (f _) as [|[v|]]; simpl; [congruence|split; auto..].
  - split; [reflexivity|]. intros [? ?]; discriminate.
Qed.

(** X5: a row that is not resized, whose height the provider leaves to
    measurement and that was not measured yet, gets the estimated height:
    the answer of [getEstimatedRowHeight] or, without it or without answer,
    the height derived from the density; the row is flagged [autoHeight]
    and the run records that a row has an automatic height. *)
Theorem hydrateRowsMeta_estimated_height env st row :
  keepsBaseCenter env ->
  NoDup (id <$> processedRows env) ->
  row ∈ processedRows env ->
  from_option isResized false (rowsHeightLookup st !! id row) = false ->
  from_option needsFirstMeasurement true (rowsHeightLookup st !! id row) = true ->
  providedHeight env row = Some HeightAuto ->
  getRowHeight env (id row) (hydrateRowsMeta env st)
    = Normal (Some (estimatedHeight env row)) /\
  rowHasAutoHeight (id row) (hydrateRowsMeta env st) = true /\
  hasRowWithAutoHeight (hydrateRowsMeta env st) = true.
Proof.
  intros Hkeep Hnd Hin Hres Hfirst Hauto.
  unfold getRowHeight, rowHasAutoHeight.
  rewrite (hydrateRowsMeta_lookup_row env st row Hnd Hin).
  rewrite (processEntry_baseCenter_kept env row _ Hkeep), autoHeight_processEntry.
  split; [|split].
  - rewrite <- (isResized_entryOf env) in Hres. rewrite <- (needsFirstMeasurement_entryOf env) in Hfirst.
    unfold baseRowHeightOf, estimatedHeight. rewrite Hres, Hfirst.
    unfold providedHeight in Hauto.
    destruct (getRowHeightProp env) as [f|]; simpl in *; [|discriminate].
    destruct (f _); [reflexivity|discriminate].
  - rewrite <- (isResized_entryOf env) in Hres.
    unfold baseRowHeightOf. rewrite Hres.
    unfold providedHeight in Hauto.
    destruct (getRowHeightProp env) as [f|]; simpl in *; [|discriminate].
    destruct (f _); [reflexivity|discriminate].
  - rewrite hasRowWithAutoHeight_hydrateRowsMeta.
    apply existsb_exists. exists row. split; [by apply list_elem_of_In|].
    unfold takesAutoBranch. rewrite Hres. unfold providedHeight in Hauto.
    destruct (getRowHeightProp env) as [f|]; simpl in *; [|discriminate].
    destruct (f _); [reflexivity|discriminate].
Qed.

(** X6: once [storeMeasuredRowHeight] has stored a measurement for the
    center of a row that is flagged [autoHeight] and not resized, a run
    gives the row the measured height, as long as the provider still leaves
    the height to measurement. *)
Theorem hydrateRowsMeta_measured_height env st row (entry : HeightEntry) (height : Z) :
  keepsBaseCenter env ->
  NoDup (id <$> processedRows env) ->
  row ∈ processedRows env ->
  rowsHeightLookup st !! id row = Some entry ->
  autoHeight entry = true ->
  isResized entry = false ->
  providedHeight env row = Some HeightAuto ->
  let measured := storeMeasuredRowHeight (id row) height "center" st in
  getRowHeight env (id row) (hydrateRowsMeta env measured) = Normal (Some height) /\
  rowHasAutoHeight (id row) (hydrateRowsMeta env measured) = true.
Proof.
  intros Hkeep Hnd Hin Hlook Hflag Hres Hauto measured.
  assert (Hentry : entryOf env measured row =
                   {| isResized := false;
                      sizes := <["baseCenter" := height]> (sizes entry);
                      autoHeight := true;
                      needsFirstMeasurement := false |}).
  { unfold entryOf, measured, storeMeasuredRowHeight. rewrite Hlook, Hflag. simpl.
    destruct (differsFrom _ _); simpl; rewrite lookup_insert_eq; simpl;
      by rewrite ?Hres, ?Hflag. }
  unfold getRowHeight, rowHasAutoHeight.
  rewrite (hydrateRowsMeta_lookup_row env measured row Hnd Hin).
  rewrite (processEntry_baseCenter_kept env row _ Hkeep), autoHeight_processEntry.
  rewrite Hentry. unfold baseRowHeightOf. simpl.
  unfold providedHeight in Hauto.
  destruct (getRowHeightProp env) as [f|]; simpl in *; [|discriminate].
  destruct (f _); [|discriminate]. simpl.
  split; [f_equal; apply lookup_insert_eq|reflexivity].
Qed.


(** ** Resetting the cache *)

(** X7: [resetRowHeights] forgets every entry of the cache: after it the
    rows with an entry are the rows the run processes, none of them is
    flagged resized, and the watermark is not moved back. *)
Theorem resetRowHeights_cache env st (rowId : GridRowId) :
  (is_Some (rowsHeightLookup (resetRowHeights env st) !! rowId) <->
   rowId ∈ id <$> processedRows env) /\
  from_option isResized false (rowsHeightLookup (resetRowHeights env st) !! rowId) = false /\
  Num_le (lastMeasuredRowIndex st) (lastMeasuredRowIndex (resetRowHeights env st)).
Proof.
  unfold resetRowHeights. split; [|split].
  - rewrite rowsHeightLookup_hydrateRowsMeta.
    rewrite (stateAfterRows_is_Some env (processedRows env)
               (set_hasRowWithAutoHeight false (set_rowsHeightLookup ∅ st))).
    simpl. rewrite lookup_empty.
    split; [intros [[? H]|H]; [discriminate|exact H]|by right].
  - rewrite rowsHeightLookup_hydrateRowsMeta.
    rewrite (stateAfterRows_resized env (processedRows env)
               (set_hasRowWithAutoHeight false (set_rowsHeightLookup ∅ st))).
    simpl. by rewrite lookup_empty.
  - apply (lastMeasuredRowIndex_hydrateRowsMeta_le env (set_rowsHeightLookup ∅ st)).
Qed.

Lemma rowTotalHeight_baseCenter (d : Z) :
  rowTotalHeight {[ "baseCenter" := d ]} = Z.max 0 d.
Proof.
  unfold rowTotalHeight, sizeParts. rewrite map_to_list_singleton. simpl.
  destruct (Z.gtb_spec d 0); lia.
Qed.

Lemma processEntry_plain env row (entry : HeightEntry) :
  plainGrid env ->
  isResized entry = false ->
  sizes entry = {[ "baseCenter" := rowHeightFromDensity env ]} ->
  isResized (processEntry env row entry) = false /\
  sizes (processEntry env row entry) = {[ "baseCenter" := rowHeightFromDensity env ]}.
Proof.
  intros (Hprovider & Hspacing & Hpipe) Hres Hsizes.
  split; [by rewrite isResized_processEntry|].
  unfold processEntry, baseRowHeightOf, withSpacing.
  rewrite Hres, Hprovider, Hspacing, Hsizes. simpl. rewrite Hpipe.
  unfold existingBaseSizes. rewrite map_filter_singleton_True by reflexivity.
  apply insert_singleton_eq.
Qed.

Lemma processedSizesOf_plain env rows :
  plainGrid env ->
  forall st,
    (forall (rowId : GridRowId) (entry : HeightEntry),
       rowsHeightLookup st !! rowId = Some entry ->
       isResized entry = false /\
       sizes entry = {[ "baseCenter" := rowHeightFromDensity env ]}) ->
    processedSizesOf env st rows =
    replicate (length rows) {[ "baseCenter" := rowHeightFromDensity env ]}.
Proof.
  intros Hplain. induction rows as [|row rows IH]; intros st Hst; [reflexivity|].
  assert (Hentry : isResized (entryOf env st row) = false /\
                   sizes (entryOf env st row) = {[ "baseCenter" := rowHeightFromDensity env ]}).
  { unfold entryOf. destruct (rowsHeightLookup st !! id row) as [e|] eqn:He; simpl.
    - by apply (Hst (id row)).
    - split; reflexivity. }
  destruct Hentry as [Hres Hsizes].
  destruct (processEntry_plain env row _ Hplain Hres Hsizes) as [Hres' Hsizes'].
  rewrite processedSizesOf_cons, calculateRowProcessedSizes_eq. simpl.
  rewrite Hsizes'. f_equal. apply IH. simpl. intros rowId entry.
  destruct (decide (id row = rowId)) as [<-|Hne].
  - rewrite lookup_insert_eq. intros Heq. inversion Heq; subst. by split.
  - rewrite lookup_insert_ne by exact Hne. apply Hst.
Qed.

Lemma sumOf_replicate (n : nat) (h : Z) : sumOf (replicate n h) = Z.of_nat n * h.
Proof. induction n as [|n IH]; [reflexivity|]. simpl replicate. unfold sumOf in *. simpl foldr. lia. Qed.

(** X8: in a grid with no height provider, no spacing provider and no
    [rowHeight] processor, [resetRowHeights] lays the rows of the page out
    uniformly: with [h] the height derived from the density (0 if it is
    negative), row [i] is at position [i * h] and the total height is [h]
    times the number of rows. *)
Theorem resetRowHeights_uniform env st :
  plainGrid env ->
  let meta := rowsMeta (resetRowHeights env st) in
  let h := Z.max 0 (rowHeightFromDensity env) in
  length (positions meta) = length (currentPage_rows env) /\
  (forall i : nat, (i < length (currentPage_rows env))%nat ->
     positions meta !! i = Some (Z.of_nat i * h)) /\
  currentPageTotalHeight meta = Z.of_nat (length (currentPage_rows env)) * h.
Proof.
  intros Hplain meta h. subst meta. unfold resetRowHeights.
  rewrite rowsMeta_hydrateRowsMeta. unfold pageSizes.
  rewrite (processedSizesOf_plain env _ Hplain)
    by (simpl; intros rowId entry; rewrite lookup_empty; discriminate).
  rewrite fmap_replicate, rowTotalHeight_baseCenter. fold h. simpl.
  split; [by rewrite length_offsetsFrom, length_replicate|]. split.
  - intros i Hi.
    rewrite (offsetsFrom_lookup _ 0 i h) by (by apply lookup_replicate_2).
    rewrite take_replicate, sumOf_replicate. f_equal. lia.
  - apply sumOf_replicate.
Qed.

(** ** Measurements and the watermark, again *)

(** X9: storing the same measurement twice is storing it once: the second
    call leaves the whole state as it is and does not call the debounced
    recomputation again. *)
Theorem storeMeasuredRowHeight_twice (rowId : GridRowId) (height : Z) (position : string) st :
  storeMeasuredRowHeight rowId height position
    (storeMeasuredRowHeight rowId height position st) =
  storeMeasuredRowHeight rowId height position st.
Proof.
  destruct (rowsHeightLookup st !! rowId) as [entry|] eqn:Hlook.
  - destruct (autoHeight entry) eqn:Hauto.
    + set (entry' := {| isResized := isResized entry;
                        sizes := <[baseSlot position := height]> (sizes entry);
                        autoHeight := true;
                        needsFirstMeasurement := false |}).
      assert (Hsame : forall st1,
                rowsHeightLookup st1 !! rowId = Some entry' ->
                storeMeasuredRowHeight rowId height position st1 = st1).
      { intros st1 H1. unfold storeMeasuredRowHeight. rewrite H1. simpl.
        unfold differsFrom. rewrite lookup_insert_eq, Z.eqb_refl.
        simpl. rewrite insert_insert_eq. destruct st1 as [lk wm flag meta calls].
        unfold set_rowsHeightLookup. simpl in *. f_equal.
        by apply insert_id. }
      apply Hsame. unfold storeMeasuredRowHeight. rewrite Hlook, Hauto. simpl.
      destruct (differsFrom _ _); simpl; apply lookup_insert_eq.
    + assert (Hst : storeMeasuredRowHeight rowId height position st = st)
        by (unfold storeMeasuredRowHeight; rewrite Hlook, Hauto; reflexivity).
      by rewrite !Hst.
  - assert (Hst : storeMeasuredRowHeight rowId height position st = st)
      by (unfold storeMeasuredRowHeight; rewrite Hlook; reflexivity).
    by rewrite !Hst.
Qed.

(** X10: two calls of [setLastMeasuredRowIndex] amount to one call with the
    larger index, so that the order of the two calls does not matter. *)
Theorem setLastMeasuredRowIndex_twice (i j : Num) st :
  setLastMeasuredRowIndex i (setLastMeasuredRowIndex j st) =
    setLastMeasuredRowIndex (Num_max i j) st /\
  setLastMeasuredRowIndex i (setLastMeasuredRowIndex j st) =
    setLastMeasuredRowIndex j (setLastMeasuredRowIndex i st).
Proof.
  assert (Hmax : forall a b s,
            setLastMeasuredRowIndex a (setLastMeasuredRowIndex b s) =
            setLastMeasuredRowIndex (Num_max a b) s).
  { intros a b [lk wm flag meta calls].
    unfold setLastMeasuredRowIndex, set_lastMeasuredRowIndex, Num_max. simpl.
    destruct flag; [|reflexivity]. simpl.
    destruct a as [x|], b as [y|], wm as [w|]; simpl;
      repeat match goal with
             | |- context [Z.gtb ?u ?v] => destruct (Z.gtb_spec u v)
             end; simpl;
      repeat match goal with
             | |- context [Z.gtb ?u ?v] => destruct (Z.gtb_spec u v)
             end; simpl; try reflexivity; try lia; f_equal; f_equal; lia. }
  split; [apply Hmax|]. rewrite !Hmax. f_equal.
  unfold Num_max. destruct i as [x|], j as [y|]; simpl; try reflexivity.
  destruct (Z.gtb_spec x y), (Z.gtb_spec y x); try reflexivity; try lia. f_equal. lia.
Qed.

End RowsMetaFurther.

(** ** Moving a column *)

Lemma findIndex_first (field : string) (l : list string) (n : nat) :
  l !! n = Some field ->
  field ∉ take n l ->
  findIndex (fun col => String.eqb col field) l = Z.of_nat n.
Proof.
  intros Hn Hfirst. unfold findIndex.
  destruct (list_find _ l) as [[i x]|] eqn:Hfind.
  - apply list_find_Some in Hfind as (Hi & Hx & Hbefore).
    apply String.eqb_eq in Hx. subst x.
    destruct (Nat.lt_trichotomy i n) as [Hlt|[->|Hgt]]; [|reflexivity|].
    + exfalso. apply Hfirst. apply elem_of_take. eauto.
    + exfalso. apply (Hbefore n field Hn Hgt). apply String.eqb_refl.
  - apply list_find_None in Hfind. exfalso.
    apply (proj1 (Forall_forall _ _) Hfind field).
    + apply list_elem_of_lookup. eauto.
    + apply String.eqb_refl.
Qed.

Lemma findIndex_absent (field : string) (l : list string) :
  field ∉ l -> findIndex (fun col => String.eqb col field) l = -1.
Proof.
  intros Hnot. unfold findIndex.
  destruct (list_find _ l) as [[i x]|] eqn:Hfind; [|reflexivity].
  apply list_find_Some in Hfind as (Hi & Hx & _).
  apply String.eqb_eq in Hx. subst x. exfalso. apply Hnot.
  apply list_elem_of_lookup. eauto.
Qed.

Lemma spliceStart_le (len : nat) (start : Z) : (spliceStart len start <= len)%nat.
Proof. unfold spliceStart. destruct (Z.ltb_spec start 0); lia. Qed.

Lemma spliceStart_in_range (len t : nat) :
  (t <= len)%nat -> spliceStart len (Z.of_nat t) = t.
Proof. intros Ht. unfold spliceStart. destruct (Z.ltb_spec (Z.of_nat t) 0); lia. Qed.

Lemma splice_remove {A : Type} (l : list A) (n : nat) (x : A) :
  l !! n = Some x ->
  splice l (Z.of_nat n) 1 [] = ([x], take n l ++ drop (S n) l).
Proof.
  intros Hn. pose proof (lookup_lt_Some _ _ _ Hn) as Hlt.
  unfold splice. rewrite spliceStart_in_range by lia.
  replace (Nat.min 1 (length l - n)) with 1%nat by lia.
  rewrite (drop_S _ _ _ Hn). simpl. rewrite take_0. f_equal. f_equal. f_equal. lia.
Qed.

Lemma splice_remove_last {A : Type} (l : list A) (x : A) :
  splice (l ++ [x]) (-1) 1 [] = ([x], l).
Proof.
  assert (Hstart : spliceStart (length (l ++ [x])) (-1) = length l).
  { unfold spliceStart. rewrite length_app. simpl. lia. }
  unfold splice. rewrite Hstart.
  replace (Nat.min 1 (length (l ++ [x]) - length l)) with 1%nat
    by (rewrite length_app; cbn [length]; lia).
  rewrite drop_app_length, take_app_length. simpl.
  rewrite drop_ge by (rewrite length_app; simpl; lia).
  by rewrite app_nil_r.
Qed.

Lemma splice_insert {A : Type} (l : list A) (start : Z) (x : A) :
  splice l start 0 [x] =
  ([], take (spliceStart (length l) start) l ++ x :: drop (spliceStart (length l) start) l).
Proof. unfold splice. simpl. rewrite take_0, Nat.add_0_r. reflexivity. Qed.

Lemma inserted_at {A : Type} (l : list A) (t : nat) (x : A) :
  (t <= length l)%nat ->
  (take t l ++ x :: drop t l) !! t = Some x /\
  delete t (take t l ++ x :: drop t l) = l.
Proof.
  intros Ht. assert (Hlen : t = length (take t l)) by (rewrite length_take; lia).
  split; [by apply list_lookup_middle|].
  rewrite delete_take_drop.
  rewrite (take_app_length' _ _ t) by exact Hlen.
  replace (drop (S t) (take t l ++ x :: drop t l)) with (drop t l).
  - apply take_drop.
  - change (take t l ++ x :: drop t l) with (take t l ++ [x] ++ drop t l).
    rewrite app_assoc.
    rewrite (drop_app_length' (take t l ++ [x])); [reflexivity|].
    rewrite length_app. simpl. lia.
Qed.

Lemma inserted_permutation {A : Type} (l : list A) (s : nat) (x : A) :
  take s l ++ x :: drop s l ≡ₚ x :: l.
Proof. rewrite <- Permutation_middle. by rewrite take_drop. Qed.

(** X11: [setColumnIndex] on a field of the ordered fields, found first at
    index [old]: with the target [old] nothing happens; with another target
    the stored ordered fields are a permutation of the former ones, the
    lookup and the visibility model are kept and the event carries the field
    and the two indices; with a target inside the array the field is at the
    target and the other fields keep their order. *)
Theorem setColumnIndex_known (field : string) (targetIndexPosition : Z) (old : nat)
    (cols : GridColumnsState) :
  orderedFields cols !! old = Some field ->
  field ∉ take old (orderedFields cols) ->
  (targetIndexPosition = Z.of_nat old ->
   setColumnIndex field targetIndexPosition cols = IndexUnchanged) /\
  (targetIndexPosition <> Z.of_nat old ->
   exists cols',
     setColumnIndex field targetIndexPosition cols =
       IndexChanged cols'
         {| orderField := field; targetIndex := targetIndexPosition;
            oldIndex := Z.of_nat old |} /\
     orderedFields cols' ≡ₚ orderedFields cols /\
     lookup cols' = lookup cols /\
     columnVisibilityModel cols' = columnVisibilityModel cols /\
     (forall t : nat,
        targetIndexPosition = Z.of_nat t ->
        (t < length (orderedFields cols))%nat ->
        orderedFields cols' !! t = Some field /\
        delete t (orderedFields cols') = delete old (orderedFields cols))).
Proof.
  intros Hold Hfirst. unfold setColumnIndex, gridColumnFieldsSelector.
  rewrite (findIndex_first _ _ _ Hold Hfirst). split.
  - intros ->. by rewrite Z.eqb_refl.
  - intros Hne. rewrite (proj2 (Z.eqb_neq _ _)) by congruence.
    rewrite (splice_remove _ _ _ Hold). cbn -[splice]. rewrite splice_insert.
    eexists. split; [reflexivity|]. simpl.
    split.
    { rewrite inserted_permutation. by rewrite <- (take_drop_middle _ _ _ Hold) at 3;
        rewrite <- Permutation_middle. }
    split; [reflexivity|]. split; [reflexivity|].
    intros t -> Ht.
    assert (Hlen : length (take old (orderedFields cols) ++ drop (S old) (orderedFields cols))
                   = (length (orderedFields cols) - 1)%nat).
    { pose proof (lookup_lt_Some _ _ _ Hold).
      rewrite length_app, length_take, length_drop. lia. }
    rewrite spliceStart_in_range by lia.
    rewrite (delete_take_drop (orderedFields cols)).
    apply inserted_at. lia.
Qed.

(** X12: [setColumnIndex] on a field that is not among the ordered fields
    finds the index [-1]: with the target [-1] nothing happens; otherwise
    the call removes the last ordered field and inserts it at the target,
    and the event names the field that was asked for with the old index
    [-1]; when there is no ordered field at all the call inserts [undefined]
    among the ordered fields. *)
Theorem setColumnIndex_unknown (field : string) (targetIndexPosition : Z)
    (cols : GridColumnsState) :
  field ∉ orderedFields cols ->
  (targetIndexPosition = -1 ->
   setColumnIndex field targetIndexPosition cols = IndexUnchanged) /\
  (targetIndexPosition <> -1 ->
   orderedFields cols = [] ->
   setColumnIndex field targetIndexPosition cols = IndexUndefinedField) /\
  (targetIndexPosition <> -1 ->
   forall (others : list string) (lastField : string),
     orderedFields cols = others ++ [lastField] ->
     exists cols',
       setColumnIndex field targetIndexPosition cols =
         IndexChanged cols'
           {| orderField := field; targetIndex := targetIndexPosition; oldIndex := -1 |} /\
       orderedFields cols' ≡ₚ orderedFields cols /\
       (forall t : nat,
          targetIndexPosition = Z.of_nat t ->
          (t <= length others)%nat ->
          orderedFields cols' !! t = Some lastField /\
          delete t (orderedFields cols') = others)).
Proof.
  intros Hnot. unfold setColumnIndex, gridColumnFieldsSelector.
  rewrite (findIndex_absent _ _ Hnot). split; [|split].
  - intros ->. reflexivity.
  - intros Hne Hnil. rewrite (proj2 (Z.eqb_neq _ _)) by congruence.
    rewrite Hnil. reflexivity.
  - intros Hne others lastField Hfields.
    rewrite (proj2 (Z.eqb_neq _ _)) by congruence.
    rewrite Hfields, splice_remove_last. cbn -[splice]. rewrite splice_insert.
    eexists. split; [reflexivity|]. simpl. split.
    { rewrite inserted_permutation. by rewrite <- Permutation_cons_append. }
    intros t -> Ht. rewrite spliceStart_in_range by lia. by apply inserted_at.
Qed.

(** ** The detail panel, again *)

Lemma filter_other_fields (f : string) (l : list string) :
  f ∉ l -> filter (fun x => x <> f) l = l.
Proof.
  induction l as [|x l IH]; intros Hnot; [reflexivity|].
  apply not_elem_of_cons in Hnot as [Hne Hnot].
  rewrite filter_cons_True by congruence. by rewrite IH.
Qed.

(** X14: when the capability appears and then goes away, the columns state
    is what it was: removing the toggle column that [addToggleColumn] added
    gives back a state that had the toggle field neither in its lookup nor
    among its ordered fields. *)
Theorem addToggleColumn_round_trip (toggleField : string) (toggleColDef : GridColDef)
    (columnsState : GridColumnsState) :
  lookup columnsState !! toggleField = None ->
  toggleField ∉ orderedFields columnsState ->
  addToggleColumn toggleField toggleColDef false
    (addToggleColumn toggleField toggleColDef true columnsState) = columnsState.
Proof.
  intros Hnone Hnot. unfold addToggleColumn. simpl. rewrite Hnone. simpl.
  rewrite lookup_insert_eq, delete_insert_eq, (delete_id _ _ Hnone).
  rewrite filter_cons_False by (intros H; by apply H).
  rewrite (filter_other_fields _ _ Hnot). by destruct columnsState.
Qed.

(** X15: [addToggleColumn] keeps the invariant of the columns state: when
    the ordered fields are the fields of the lookup before the call, they
    are after it, with and without the capability. *)
Theorem addToggleColumn_keeps_invariant (toggleField : string) (toggleColDef : GridColDef)
    (hasContent : bool) (columnsState : GridColumnsState) :
  fieldsMatchLookup columnsState ->
  fieldsMatchLookup (addToggleColumn toggleField toggleColDef hasContent columnsState).
Proof.
  intros Hinv f. unfold addToggleColumn.
  destruct hasContent, (lookup columnsState !! toggleField) as [c|] eqn:Hl; simpl;
    try apply Hinv.
  - rewrite elem_of_cons, lookup_insert_is_Some', (Hinv f). split; intros [H|H]; auto.
  - rewrite list_elem_of_filter, lookup_delete_is_Some, (Hinv f).
    split; intros [H1 H2]; split; auto.
Qed.

(** X16: [addExpandedClassToRow] keeps the classes it is given, in their
    order, as the first classes of its result and adds at most one class;
    for a row that does not have the class of an expanded row yet, the
    result has it exactly when the capability is there and the row is among
    the expanded rows. *)
Theorem addExpandedClassToRow_spec (hasContent : bool) (expandedRowIds : list GridRowId)
    (classes : list string) (rowId : GridRowId) :
  let result := addExpandedClassToRow hasContent expandedRowIds classes rowId in
  classes `prefix_of` result /\
  (length result <= S (length classes))%nat /\
  ("MuiDataGrid-row--detailPanelExpanded" ∉ classes ->
   ("MuiDataGrid-row--detailPanelExpanded" ∈ result <->
    hasContent = true /\ rowId ∈ expandedRowIds)).
Proof.
  intros result. subst result. unfold addExpandedClassToRow.
  destruct hasContent; simpl.
  - destruct (bool_decide_reflect (rowId ∈ expandedRowIds)) as [Hin|Hnin]; simpl.
    + split; [by apply prefix_app_r|]. split; [rewrite length_app; simpl; lia|].
      intros _. split; [auto|]. intros _. apply elem_of_app. right. apply list_elem_of_here.
    + split; [reflexivity|]. split; [lia|]. intros Hnot. split; [contradiction|].
      intros [_ H]. contradiction.
  - split; [reflexivity|]. split; [lia|]. intros Hnot. split; [contradiction|].
    intros [H _]. discriminate.
Qed.

(** ** The pointer of the clock *)

(** X17: on the hour ring the pointer makes a twelfth of a turn per hour,
    and the hours of the afternoon point where the hours of the morning
    point: for a value from 0 to 24 the angle lies between 0 and 360 degrees,
    and for a value from 13 to 24 it is the angle of the value minus 12. *)
Theorem getAngleStyle_angle_hours (viewValue : Z) :
  0 <= viewValue <= 24 ->
  0 <= getAngleStyle_angle hours viewValue <= 360 /\
  (viewValue <= 12 -> getAngleStyle_angle hours viewValue = 30 * viewValue) /\
  (13 <= viewValue ->
   getAngleStyle_angle hours viewValue = getAngleStyle_angle hours (viewValue - 12)).
Proof.
  intros Hv. unfold getAngleStyle_angle. simpl isHours. cbv beta iota zeta.
  change (360 / 12) with 30. simpl andb.
  destruct (Z.gtb_spec viewValue 12), (Z.gtb_spec (viewValue - 12) 12);
    repeat split; intros; lia.
Qed.

(** X18: on the rings of the minutes and of the seconds the pointer makes a
    sixtieth of a turn per unit and never wraps: for a value from 0 to 59
    the angle is 6 times the value, below 360 degrees, and two values with
    the same angle are the same value; the same holds on the hour ring for
    two hours from 1 to 12. *)
Theorem getAngleStyle_angle_injective (type : ClockPickerView) (v1 v2 : Z) :
  (if isHours type then 1 <= v1 <= 12 /\ 1 <= v2 <= 12
   else 0 <= v1 <= 59 /\ 0 <= v2 <= 59) ->
  (isHours type = false ->
   getAngleStyle_angle type v1 = 6 * v1 /\ 0 <= getAngleStyle_angle type v1 < 360) /\
  (getAngleStyle_angle type v1 = getAngleStyle_angle type v2 -> v1 = v2).
Proof.
  intros Hv. unfold getAngleStyle_angle.
  destruct type; cbn [isHours] in *; cbv beta iota zeta in *; cbn [andb];
    try change (360 / 12) with 30; try change (360 / 60) with 6.
  - split; [discriminate|].
    destruct (Z.gtb_spec v1 12), (Z.gtb_spec v2 12); intros; lia.
  - split; [intros _; lia|intros; lia].
  - split; [intros _; lia|intros; lia].
Qed.

(** ** The further properties on the concrete grids *)

Import Scenarios.

Lemma gridEnv_processedRows_NoDup : NoDup (id <$> processedRows gridEnv).
Proof. apply (bool_decide_unpack _). vm_compute. exact I. Qed.

Lemma gridEnv_keepsBaseCenter : keepsBaseCenter gridEnv.
Proof. exact (keepsBaseSizes_keepsBaseCenter _ gridEnv_keepsBaseSizes). Qed.

Lemma hydrateRowsMeta_cache_witness :
  ("z" ∉ id <$> processedRows gridEnv) /\
  rowsHeightLookup (hydrateRowsMeta gridEnv gridState) !! "z" = None /\
  is_Some (rowsHeightLookup (hydrateRowsMeta gridEnv initialState) !! "t").
Proof.
  assert (H : "z" ∉ id <$> processedRows gridEnv).
  { apply (bool_decide_unpack _). vm_compute. exact I. }
  split; [exact H|]. split.
  - rewrite (proj2 (hydrateRowsMeta_cache gridEnv gridState "z") H).
    vm_compute. reflexivity.
  - apply (proj1 (hydrateRowsMeta_cache gridEnv initialState "t")). right.
    apply (bool_decide_unpack _). vm_compute. exact I.
Defined.

Lemma hydrateRowsMeta_fixed_height_witness :
  row "b" ∈ processedRows gridEnv /\
  providedHeight gridEnv (row "b") <> Some HeightAuto /\
  getRowHeight gridEnv "b" (hydrateRowsMeta gridEnv initialState) = Normal (Some 30) /\
  rowHasAutoHeight "b" (hydrateRowsMeta gridEnv initialState) = false.
Proof.
  assert (Hin : row "b" ∈ processedRows gridEnv).
  { apply list_elem_of_further, list_elem_of_here. }
  assert (Hfixed : providedHeight gridEnv (row "b") <> Some HeightAuto)
    by (vm_compute; discriminate).
  split; [exact Hin|]. split; [exact Hfixed|].
  destruct (hydrateRowsMeta_fixed_height gridEnv initialState (row "b")
              gridEnv_keepsBaseCenter gridEnv_processedRows_NoDup Hin eq_refl Hfixed)
    as [Hheight Hauto].
  split; [exact Hheight|]. apply Hauto. vm_compute. eexists. reflexivity.
Defined.

Lemma hydrateRowsMeta_estimated_height_witness :
  row "a" ∈ processedRows gridEnv /\
  providedHeight gridEnv (row "a") = Some HeightAuto /\
  getRowHeight gridEnv "a" (hydrateRowsMeta gridEnv initialState) = Normal (Some 52) /\
  rowHasAutoHeight "a" (hydrateRowsMeta gridEnv initialState) = true /\
  hasRowWithAutoHeight (hydrateRowsMeta gridEnv initialState) = true.
Proof.
  assert (Hin : row "a" ∈ processedRows gridEnv) by apply list_elem_of_here.
  split; [exact Hin|]. split; [reflexivity|].
  exact (hydrateRowsMeta_estimated_height gridEnv initialState (row "a")
           gridEnv_keepsBaseCenter gridEnv_processedRows_NoDup Hin eq_refl eq_refl eq_refl).
Defined.

Lemma hydrateRowsMeta_measured_height_witness :
  rowsHeightLookup gridState !! "a" = Some entryA /\
  getRowHeight gridEnv "a"
    (hydrateRowsMeta gridEnv (storeMeasuredRowHeight "a" 80 "center" gridState))
    = Normal (Some 80) /\
  rowHasAutoHeight "a"
    (hydrateRowsMeta gridEnv (storeMeasuredRowHeight "a" 80 "center" gridState)) = true.
Proof.
  split; [exact gridState_entryA|].
  exact (hydrateRowsMeta_measured_height gridEnv gridState (row "a") entryA 80
           gridEnv_keepsBaseCenter gridEnv_processedRows_NoDup
           (list_elem_of_here _ _) gridState_entryA eq_refl eq_refl eq_refl).
Defined.

Lemma plainEnv_plainGrid : plainGrid plainEnv.
Proof. repeat split. Qed.

Lemma resetRowHeights_uniform_witness :
  plainGrid plainEnv /\
  positions (rowsMeta (resetRowHeights plainEnv gridState)) !! 2%nat = Some 104 /\
  currentPageTotalHeight (rowsMeta (resetRowHeights plainEnv gridState)) = 156.
Proof.
  split; [exact plainEnv_plainGrid|].
  destruct (resetRowHeights_uniform plainEnv gridState plainEnv_plainGrid)
    as (_ & Hpositions & Htotal).
  split; [|exact Htotal].
  apply (Hpositions 2%nat). simpl. lia.
Defined.

Lemma setColumnIndex_known_witness :
  orderedFields threeColumns !! 1%nat = Some "age" /\
  ("age" ∉ take 1 (orderedFields threeColumns)) /\
  setColumnIndex "age" 1 threeColumns = IndexUnchanged /\
  exists cols',
    setColumnIndex "age" 0 threeColumns =
      IndexChanged cols' {| orderField := "age"; targetIndex := 0; oldIndex := 1 |} /\
    orderedFields cols' !! 0%nat = Some "age" /\
    delete 0%nat (orderedFields cols') = ["name"; "city"].
Proof.
  assert (Hfirst : "age" ∉ take 1 (orderedFields threeColumns)).
  { apply (bool_decide_unpack _). vm_compute. exact I. }
  split; [reflexivity|]. split; [exact Hfirst|].
  destruct (setColumnIndex_known "age" 1 1 threeColumns eq_refl Hfirst) as [Hsame _].
  split; [exact (Hsame eq_refl)|].
  destruct (setColumnIndex_known "age" 0 1 threeColumns eq_refl Hfirst) as [_ Hmove].
  destruct Hmove as (cols' & Hresult & _ & _ & _ & Hat); [discriminate|].
  exists cols'. split; [exact Hresult|].
  apply (Hat 0%nat eq_refl). simpl. lia.
Defined.

Lemma setColumnIndex_unknown_witness :
  ("zip" ∉ orderedFields threeColumns) /\
  setColumnIndex "zip" (-1) threeColumns = IndexUnchanged /\
  exists cols',
    setColumnIndex "zip" 0 threeColumns =
      IndexChanged cols' {| orderField := "zip"; targetIndex := 0; oldIndex := -1 |} /\
    orderedFields cols' !! 0%nat = Some "city" /\
    delete 0%nat (orderedFields cols') = ["name"; "age"].
Proof.
  assert (Hnot : "zip" ∉ orderedFields threeColumns).
  { apply (bool_decide_unpack _). vm_compute. exact I. }
  split; [exact Hnot|].
  split; [exact (proj1 (setColumnIndex_unknown "zip" (-1) threeColumns Hnot) eq_refl)|].
  destruct (proj2 (proj2 (setColumnIndex_unknown "zip" 0 threeColumns Hnot))
              ltac:(discriminate) ["name"; "age"] "city" eq_refl)
    as (cols' & Hresult & _ & Hat).
  exists cols'. split; [exact Hresult|].
  apply (Hat 0%nat eq_refl). simpl. lia.
Defined.

Lemma cleanColumns_fieldsMatchLookup : fieldsMatchLookup cleanColumns.
Proof.
  intros f. simpl. rewrite !elem_of_cons, lookup_insert_is_Some'.
  rewrite <- elem_of_dom, dom_singleton_L, elem_of_singleton.
  split.
  - intros H. destruct H as [H|H]; [left; by rewrite H|].
    destruct H as [H|H]; [by right|by apply elem_of_nil in H].
  - intros H. destruct H as [H|H]; [left; by rewrite H|right; by left].
Qed.

Lemma addToggleColumn_round_trip_witness :
  lookup cleanColumns !! toggleField = None /\
  (toggleField ∉ orderedFields cleanColumns) /\
  addToggleColumn toggleField toggleColumn false
    (addToggleColumn toggleField toggleColumn true cleanColumns) = cleanColumns.
Proof.
  assert (Hnot : toggleField ∉ orderedFields cleanColumns).
  { apply (bool_decide_unpack _). vm_compute. exact I. }
  split; [reflexivity|]. split; [exact Hnot|].
  exact (addToggleColumn_round_trip toggleField toggleColumn cleanColumns eq_refl Hnot).
Defined.

Lemma addToggleColumn_keeps_invariant_witness :
  fieldsMatchLookup cleanColumns /\
  fieldsMatchLookup (addToggleColumn toggleField toggleColumn true cleanColumns).
Proof.
  split; [exact cleanColumns_fieldsMatchLookup|].
  exact (addToggleColumn_keeps_invariant toggleField toggleColumn true cleanColumns
           cleanColumns_fieldsMatchLookup).
Defined.

Lemma addExpandedClassToRow_spec_witness :
  ("MuiDataGrid-row--detailPanelExpanded" ∉ ["MuiDataGrid-row"]) /\
  ("MuiDataGrid-row--detailPanelExpanded"
     ∈ addExpandedClassToRow true ["a"; "c"] ["MuiDataGrid-row"] "c") /\
  "MuiDataGrid-row--detailPanelExpanded"
    ∉ addExpandedClassToRow true ["a"; "c"] ["MuiDataGrid-row"] "b".
Proof.
  assert (Hnot : "MuiDataGrid-row--detailPanelExpanded" ∉ ["MuiDataGrid-row"]).
  { apply (bool_decide_unpack _). vm_compute. exact I. }
  split; [exact Hnot|]. split.
  - apply (proj2 (proj2 (addExpandedClassToRow_spec true ["a"; "c"] ["MuiDataGrid-row"] "c"))
             Hnot).
    split; [reflexivity|]. apply (bool_decide_unpack _). vm_compute. exact I.
  - intros Hin.
    apply (proj2 (proj2 (addExpandedClassToRow_spec true ["a"; "c"] ["MuiDataGrid-row"] "b"))
             Hnot) in Hin.
    destruct Hin as [_ Hin]. revert Hin.
    apply (bool_decide_unpack ("b" ∉ ["a"; "c"])). vm_compute. exact I.
Defined.

Lemma getAngleStyle_angle_hours_witness :
  0 <= 15 <= 24 /\
  getAngleStyle_angle hours 15 = getAngleStyle_angle hours 3 /\
  0 <= getAngleStyle_angle hours 15 <= 360.
Proof.
  assert (H : 0 <= 15 <= 24) by lia.
  split; [exact H|].
  destruct (getAngleStyle_angle_hours 15 H) as (Hbound & _ & Hwrap).
  split; [apply Hwrap; lia|exact Hbound].
Defined.

Lemma getAngleStyle_angle_injective_witness :
  getAngleStyle_angle minutes 45 = 270 /\
  (getAngleStyle_angle minutes 45 = getAngleStyle_angle minutes 45 -> 45 = 45).
Proof.
  assert (H : 0 <= 45 <= 59 /\ 0 <= 45 <= 59) by lia.
  destruct (getAngleStyle_angle_injective minutes 45 45 H) as [Hangle Hinj].
  split; [exact (proj1 (Hangle eq_refl))|exact Hinj].
Defined.
